(** * The sale transaction engine of the inventory application

    A shallow embedding of the sale handling code of [models.py] and
    [routes.py]: the pricing of a sale line ([SaleItem.calculate_line_totals]),
    the totals of a sale ([Sale.calculate_totals]), the invoice numbering
    ([Sale.generate_invoice_number]) and the request handlers that create,
    void and confirm sales ([add_sale], [create_multi_item_sale], [void_sale],
    [confirm_payment]).

    Conventions of the embedding.
    - The database is an explicit value [DB]; a handler maps the user, the
      time, a request and a database to a response and the database left
      behind.  A [db.session.rollback()], and a return before any
      [db.session.commit()], leave the database as it was.
    - A response is the redirect, page or error the handler answers with,
      with the messages it flashed, in the words of the source.
    - [Decimal] values are exact rationals ([Qc]).  Python's [Decimal]
      arithmetic is exact as long as a result fits the context precision of
      28 significant digits; the rounding a [Numeric(10, 2)] column applies
      when a row is written, the width of the text columns and the foreign
      keys are enforced by the database engine, outside the source, and are
      not part of the model.
    - Strings are [string]; the status columns hold free text in the source
      and are strings here.
    - [datetime.utcnow()] is an input of the handlers ([now]), read once for
      a request.
    - A request is modelled after the parsing of its fields: a field whose
      conversion raises is a constructor of its own.
    - The audit log ([log_action]) commits on its own after the business
      transaction and swallows its failures; it is left out. *)

From Stdlib Require Import ZArith QArith Qcanon Qround Lia.
From Stdlib Require Import Ascii String.
From stdpp Require Import base option list gmap strings pretty numbers.

Local Open Scope Z_scope.

(** ** Decimal numbers *)

Abbreviation Decimal := Qc.

(** [Decimal('29.97')]: a literal. *)
Definition dec (q : Q) : Decimal := Q2Qc q.

(** An [int] operand of a mixed [int]/[Decimal] operation. *)
Definition dec_of_int (z : Z) : Decimal := Qc_of_Z z.

(** Python's [sum(...)]: starts from the integer 0 and adds from the left. *)
Definition dec_sum (l : list Decimal) : Decimal := foldl Qcplus (dec_of_int 0) l.

(** [x or 0] on a nullable [Decimal]: [None] and a zero both give zero. *)
Definition or_zero (x : option Decimal) : Decimal := default (dec_of_int 0) x.



(** ** Strings *)

Local Open Scope string_scope.
Local Open Scope list_scope.

(** White space as [str.strip()] sees it, on the ASCII range. *)
Definition is_space (c : ascii) : bool :=
  let n := N_of_ascii c in
  ((9 <=? n) && (n <=? 13) || (28 <=? n) && (n <=? 32))%N.

Fixpoint lstrip (s : string) : string :=
  match s with
  | String c s' => if is_space c then lstrip s' else s
  | EmptyString => EmptyString
  end.

Fixpoint rstrip (s : string) : string :=
  match s with
  | String c s' =>
      match rstrip s' with
      | EmptyString => if is_space c then EmptyString else String c EmptyString
      | r => String c r
      end
  | EmptyString => EmptyString
  end.

(** [s.strip()] *)
Definition strip (s : string) : string := lstrip (rstrip s).

(** [s.split('-')[-1]]: what follows the last dash, all of [s] without one. *)
Fixpoint last_segment_from (seg s : string) : string :=
  match s with
  | EmptyString => seg
  | String c s' =>
      if Ascii.eqb c "-" then last_segment_from s' s'
      else last_segment_from seg s'
  end.

Definition last_segment (s : string) : string := last_segment_from s s.

Definition digit_of_ascii (c : ascii) : option N :=
  let n := N_of_ascii c in
  if ((48 <=? n) && (n <=? 57))%N then Some (n - 48)%N else None.

Fixpoint int_of_digits (acc : N) (s : string) : option N :=
  match s with
  | EmptyString => Some acc
  | String c s' =>
      match digit_of_ascii c with
      | Some d => int_of_digits (10 * acc + d)%N s'
      | None => None
      end
  end.

(** [int(s)] on a text of decimal digits, which is what the invoice numbering
    writes after the dash.  [None] stands for the [ValueError] Python raises on
    the empty text or on a character that is no digit (the blanks, sign and
    underscores [int] would accept are not modelled: they give [None] too). *)
Definition int_of_string (s : string) : option N :=
  match s with
  | EmptyString => None
  | _ => int_of_digits 0 s
  end.

Fixpoint zeros (n : nat) : string :=
  match n with
  | O => EmptyString
  | S n' => String "0" (zeros n')
  end.

(** [f"{n:0{w}d}"] for a natural number: the decimal text of [n], padded with
    zeros on the left to at least [w] characters. *)
Definition format_0d (w : nat) (n : N) : string :=
  let s := pretty n in zeros (w - String.length s) +:+ s.

Local Open Scope Z_scope.

(** ** Data model ([models.py]) *)

(** A [datetime]. *)
Record datetime : Type := mk_datetime {
  dt_year : N; dt_month : N; dt_day : N;
  dt_hour : N; dt_minute : N; dt_second : N
}.

Record InventoryItem : Type := mk_InventoryItem {
  item_type : string;
  source_location : string;
  quantity : Z;
  purchase_cost : Decimal;
  retail_price : option Decimal;
  selling_price : Decimal;
  item_discount_percentage : Z;
  status : string
}.

Record Customer : Type := mk_Customer {
  customer_name : string;
  customer_email : option string;
  customer_phone : option string
}.

Record Sale : Type := mk_Sale {
  invoice_number : string;
  sale_date : datetime;
  customer_id : Z;
  total_sale_price : Decimal;
  total_discount_amount : Decimal;
  final_total_price : Decimal;
  payment_method : string;
  payment_receiver : string;
  payment_status : string;
  notes : option string;
  zelle_payment : bool;
  sold_by : Z;
  payment_confirmed_at : option datetime;
  payment_confirmed_by : option Z;
  payment_proof_file : option string;
  voided_at : option datetime;
  voided_by : option Z;
  void_reason : option string;
  (* legacy single item columns *)
  inventory_id : option Z;
  quantity_sold : option Z;
  sale_price : option Decimal;
  discount_percentage : option Decimal;
  final_price : option Decimal
}.

Record SaleItem : Type := mk_SaleItem {
  si_sale_id : Z;
  si_inventory_id : Z;
  si_quantity_sold : Z;
  unit_price : Decimal;
  line_total : Decimal;
  si_discount_percentage : Decimal;
  discount_amount : Decimal;
  final_line_total : Decimal
}.

Record User : Type := mk_User {
  user_id : Z;
  username : string;
  role : string
}.

(** The tables.  Inventory items, customers and sales are keyed by primary
    key; the rows of [sale_item] are kept in insertion order. *)
Record DB : Type := mk_DB {
  inventory : gmap Z InventoryItem;
  customers : gmap Z Customer;
  sales : gmap Z Sale;
  sale_items : list SaleItem
}.


(** [sale.sale_items]: the rows of [sale_item] that belong to the sale. *)
Definition sale_items_of (sid : Z) (rows : list SaleItem) : list SaleItem :=
  filter (λ si, si_sale_id si = sid) rows.

(** The primary key the database gives the next row of a table. *)
Definition next_id {A} (m : gmap Z A) : Z :=
  1 + foldr Z.max 0 (fst <$> map_to_list m).

(** ** Pricing ([SaleItem.calculate_line_totals], [Sale.calculate_totals]) *)

Definition calculate_line_totals (si : SaleItem) : SaleItem :=
  let line_total' := (dec_of_int (si_quantity_sold si) * unit_price si)%Qc in
  let discount_amount' :=
    ((line_total' * si_discount_percentage si) / dec_of_int 100)%Qc in
  {| si_sale_id := si_sale_id si;
     si_inventory_id := si_inventory_id si;
     si_quantity_sold := si_quantity_sold si;
     unit_price := unit_price si;
     line_total := line_total';
     si_discount_percentage := si_discount_percentage si;
     discount_amount := discount_amount';
     final_line_total := (line_total' - discount_amount')%Qc |}.

(** The three totals of a sale, written by [calculate_totals]. *)
Definition set_totals (s : Sale) (total discount final : Decimal) : Sale :=
  {| invoice_number := invoice_number s;
     sale_date := sale_date s;
     customer_id := customer_id s;
     total_sale_price := total;
     total_discount_amount := discount;
     final_total_price := final;
     payment_method := payment_method s;
     payment_receiver := payment_receiver s;
     payment_status := payment_status s;
     notes := notes s;
     zelle_payment := zelle_payment s;
     sold_by := sold_by s;
     payment_confirmed_at := payment_confirmed_at s;
     payment_confirmed_by := payment_confirmed_by s;
     payment_proof_file := payment_proof_file s;
     voided_at := voided_at s;
     voided_by := voided_by s;
     void_reason := void_reason s;
     inventory_id := inventory_id s;
     quantity_sold := quantity_sold s;
     sale_price := sale_price s;
     discount_percentage := discount_percentage s;
     final_price := final_price s |}.

(** [Sale.calculate_totals], with [items] the collection [self.sale_items].
    The legacy branch leaves [total_discount_amount] as it is. *)
Definition calculate_totals (items : list SaleItem) (s : Sale) : Sale :=
  match items with
  | _ :: _ =>
      set_totals s
        (dec_sum (line_total <$> items))
        (dec_sum (discount_amount <$> items))
        (dec_sum (final_line_total <$> items))
  | [] =>
      set_totals s
        (or_zero (sale_price s))
        (total_discount_amount s)
        (or_zero (final_price s))
  end.

(** ** Invoice numbering ([Sale.generate_invoice_number]) *)

(** [today.strftime('%Y%m%d')], for the four digit years [utcnow] gives. *)
Definition strftime_Ymd (d : datetime) : string :=
  format_0d 4 (dt_year d) +:+ format_0d 2 (dt_month d)
  +:+ format_0d 2 (dt_day d).

Definition invoice_prefix (today : datetime) : string :=
  "INV" +:+ strftime_Ymd today.

Definition str_max (a b : string) : string :=
  if String.leb a b then b else a.

(** [Sale.query.filter(Sale.invoice_number.like(prefix + '%'))
      .order_by(Sale.invoice_number.desc()).first()]
    over the invoice numbers in the table: the greatest, in the order of the
    character codes, of those that start with [prefix]. *)
Definition last_invoice (prefix : string) (existing : list string)
  : option string :=
  match filter (λ s, String.prefix prefix s = true) existing with
  | [] => None
  | x :: l => Some (foldl str_max x l)
  end.

(** The text [generate_invoice_number] computes; [None] when [int] raises. *)
Definition generated_invoice_number (today : datetime) (existing : list string)
  : option string :=
  let prefix := invoice_prefix today in
  match last_invoice prefix existing with
  | Some last =>
      match int_of_string (last_segment last) with
      | Some n => Some (prefix +:+ "-" +:+ format_0d 4 (n + 1))
      | None => None
      end
  | None => Some (prefix +:+ "-" +:+ format_0d 4 1)
  end.

Definition invoice_numbers (db : DB) : list string :=
  (λ kv, invoice_number kv.2) <$> map_to_list (sales db).

Definition set_invoice_number (s : Sale) (inv : string) : Sale :=
  {| invoice_number := inv;
     sale_date := sale_date s;
     customer_id := customer_id s;
     total_sale_price := total_sale_price s;
     total_discount_amount := total_discount_amount s;
     final_total_price := final_total_price s;
     payment_method := payment_method s;
     payment_receiver := payment_receiver s;
     payment_status := payment_status s;
     notes := notes s;
     zelle_payment := zelle_payment s;
     sold_by := sold_by s;
     payment_confirmed_at := payment_confirmed_at s;
     payment_confirmed_by := payment_confirmed_by s;
     payment_proof_file := payment_proof_file s;
     voided_at := voided_at s;
     voided_by := voided_by s;
     void_reason := void_reason s;
     inventory_id := inventory_id s;
     quantity_sold := quantity_sold s;
     sale_price := sale_price s;
     discount_percentage := discount_percentage s;
     final_price := final_price s |}.

Definition generate_invoice_number (today : datetime) (db : DB) (s : Sale)
  : option Sale :=
  set_invoice_number s <$> generated_invoice_number today (invoice_numbers db).

(** ** Permissions ([User.has_permission]) *)

Definition permissions (role : string) : list string :=
  if String.eqb role "office_admin" then
    [ "manage_users"; "view_all"; "reconcile_payments"; "manage_inventory";
      "create_sales"; "view_inventory"; "view_sales"; "edit_inventory";
      "delete_inventory"; "edit_sales"; "delete_sales"; "manage_customers";
      "view_customers"; "edit_customers"; "delete_customers"; "manage_files";
      "view_files"; "edit_files"; "delete_files"; "generate_reports";
      "export_data"; "import_data"; "system_settings"; "view_reports" ]
  else if String.eqb role "sales_staff" then
    [ "create_sales"; "view_inventory"; "view_sales"; "manage_customers";
      "view_customers"; "edit_customers"; "view_files"; "view_reports" ]
  else if String.eqb role "intake_staff" then
    [ "manage_inventory"; "view_inventory"; "edit_inventory";
      "manage_files"; "view_files"; "edit_files" ]
  else [].

Definition has_permission (u : User) (permission : string) : bool :=
  existsb (String.eqb permission) (permissions (role u)).

(** ** Responses *)

(** A flashed message and its category. *)
Abbreviation Flash := (string * string)%type.

Inductive Response : Type :=
| Redirect (endpoint : string) (flashes : list Flash)
| Render (template : string)
| Abort (code : Z).

(** ** Stock movements *)

Definition set_stock (it : InventoryItem) (q : Z) (st : string) : InventoryItem :=
  {| item_type := item_type it;
     source_location := source_location it;
     quantity := q;
     purchase_cost := purchase_cost it;
     retail_price := retail_price it;
     selling_price := selling_price it;
     item_discount_percentage := item_discount_percentage it;
     status := st |}.

(** The stock update of [create_multi_item_sale] for one line: the item loses
    [q] units when it holds at least [q], and is marked sold when none is
    left; otherwise it is left alone. *)
Definition take_stock (it : InventoryItem) (q : Z) : option InventoryItem :=
  if bool_decide (q ≤ quantity it)%Z then
    let q' := quantity it - q in
    Some (set_stock it q' (if bool_decide (q' = 0) then "sold" else status it))
  else None.

(** The stock update of [void_sale]: the units come back and the item is
    available again. *)
Definition give_back (it : InventoryItem) (q : Z) : InventoryItem :=
  set_stock it (quantity it + q) "available".

(** ** Creating a multi-item sale ([create_multi_item_sale]) *)

(** [request.form.get('customer_id')]: the text ['0'], an integer, or
    something [int] raises on. *)
Inductive CustomerId : Type :=
| CustomerNew
| CustomerExisting (id : Z)
| CustomerUnparsable.

Record LineRequest : Type := mk_LineRequest {
  lr_inventory_id : Z;
  lr_quantity : Z;
  lr_unit_price : Decimal;
  lr_discount_percentage : Decimal
}.

(** One entry of [sale_items_data]: an entry the loop passes over with
    [continue] (a required field is missing or empty), an entry whose
    conversion raises, or a line. *)
Inductive SaleLine : Type :=
| LineSkipped
| LineUnparsable
| Line (l : LineRequest).

Record MultiItemRequest : Type := mk_MultiItemRequest {
  mi_csrf_valid : bool;
  mi_customer_id : CustomerId;
  mi_new_customer_name : string;
  mi_new_customer_email : string;
  mi_new_customer_phone : string;
  mi_payment_method : option string;
  mi_payment_receiver : option string;
  mi_notes : string;
  mi_zelle_payment : bool;
  mi_lines : list SaleLine
}.

(** What the loop over the lines has built so far. *)
Record Cart : Type := mk_Cart {
  cart_inventory : gmap Z InventoryItem;
  cart_rows : list SaleItem;
  cart_created : nat;
  cart_flashes : list Flash
}.

(** The result of a block that may raise; the messages flashed before the
    exception stay. *)
Inductive Try (A : Type) : Type :=
| Done (a : A)
| Raised (flashes : list Flash).
Arguments Done {A} a.
Arguments Raised {A} flashes.

Definition new_sale_item (sid : Z) (l : LineRequest) : SaleItem :=
  calculate_line_totals
    {| si_sale_id := sid;
       si_inventory_id := lr_inventory_id l;
       si_quantity_sold := lr_quantity l;
       unit_price := lr_unit_price l;
       line_total := dec_of_int 0;
       si_discount_percentage := lr_discount_percentage l;
       discount_amount := dec_of_int 0;
       final_line_total := dec_of_int 0 |}.

(** The body of the loop for a line that parses. *)
Definition add_line (sid : Z) (l : LineRequest) (c : Cart) : Cart :=
  let rows := cart_rows c ++ [new_sale_item sid l] in
  let created := S (cart_created c) in
  match cart_inventory c !! lr_inventory_id l with
  | Some it =>
      match take_stock it (lr_quantity l) with
      | Some it' =>
          mk_Cart (<[lr_inventory_id l := it']> (cart_inventory c))
            rows created (cart_flashes c)
      | None =>
          mk_Cart (cart_inventory c) rows created
            (cart_flashes c ++
               [("Warning: Not enough quantity for " +:+ item_type it, "warning")])
      end
  | None => mk_Cart (cart_inventory c) rows created (cart_flashes c)
  end.

Fixpoint process_lines (sid : Z) (lines : list SaleLine) (c : Cart) : Try Cart :=
  match lines with
  | [] => Done c
  | LineSkipped :: rest => process_lines sid rest c
  | LineUnparsable :: _ => Raised (cart_flashes c)
  | Line l :: rest => process_lines sid rest (add_line sid l c)
  end.

(** The customer of the sale: the customers table after the step and the
    customer's id; [Raised] when [int] or [get_or_404] raises, and the early
    return when a new customer has no name. *)
Inductive CustomerStep : Type :=
| CustomerOk (cs : gmap Z Customer) (id : Z)
| CustomerNameMissing
| CustomerRaised.

Definition multi_item_customer (req : MultiItemRequest) (db : DB) : CustomerStep :=
  match mi_customer_id req with
  | CustomerNew =>
      let name := strip (mi_new_customer_name req) in
      if bool_decide (name = "") then CustomerNameMissing
      else
        let id := next_id (customers db) in
        CustomerOk
          (<[id := {| customer_name := name;
                      customer_email := Some (strip (mi_new_customer_email req));
                      customer_phone := Some (strip (mi_new_customer_phone req)) |}]>
             (customers db))
          id
  | CustomerExisting id =>
      match customers db !! id with
      | Some _ => CustomerOk (customers db) id
      | None => CustomerRaised
      end
  | CustomerUnparsable => CustomerRaised
  end.

(** The [Sale] row of a multi-item sale before its totals are computed. *)
Definition new_multi_item_sale (u : User) (now : datetime) (cid : Z)
    (inv method receiver : string) (req : MultiItemRequest) : Sale :=
  {| invoice_number := inv;
     sale_date := now;
     customer_id := cid;
     total_sale_price := dec 0.00;
     total_discount_amount := dec 0.00;
     final_total_price := dec 0.00;
     payment_method := method;
     payment_receiver := receiver;
     payment_status := "pending";
     notes := Some (mi_notes req);
     zelle_payment := mi_zelle_payment req;
     sold_by := user_id u;
     payment_confirmed_at := None;
     payment_confirmed_by := None;
     payment_proof_file := None;
     voided_at := None;
     voided_by := None;
     void_reason := None;
     inventory_id := None;
     quantity_sold := None;
     sale_price := None;
     discount_percentage := None;
     final_price := None |}.

Definition error_creating_sale : Flash :=
  ("Error creating sale. Please try again.", "danger").

(** The [try] block of [create_multi_item_sale]; every exception ends in
    [db.session.rollback()] and the error message.  The flush of the sale
    raises when a column that is not nullable is missing or when the invoice
    number is already taken. *)
Definition create_multi_item_sale_txn (u : User) (now : datetime)
    (req : MultiItemRequest) (db : DB) : Response * DB :=
  match multi_item_customer req db with
  | CustomerNameMissing =>
      (Redirect "sales" [("Customer name is required", "danger")], db)
  | CustomerRaised => (Redirect "sales" [error_creating_sale], db)
  | CustomerOk cs cid =>
      match generated_invoice_number now (invoice_numbers db),
            mi_payment_method req, mi_payment_receiver req with
      | Some inv, Some method, Some receiver =>
          if bool_decide (inv ∈ invoice_numbers db) then
            (Redirect "sales" [error_creating_sale], db)
          else
            let sid := next_id (sales db) in
            let sale := new_multi_item_sale u now cid inv method receiver req in
            match process_lines sid (mi_lines req)
                    (mk_Cart (inventory db) [] 0 []) with
            | Raised fl => (Redirect "sales" (fl ++ [error_creating_sale]), db)
            | Done c =>
                if bool_decide (cart_created c = 0%nat) then
                  (Redirect "sales"
                     (cart_flashes c ++
                        [("Error: No valid sale items were processed. Please ensure items are selected properly.",
                          "danger")]),
                   db)
                else
                  let rows := sale_items db ++ cart_rows c in
                  let sale' := calculate_totals (sale_items_of sid rows) sale in
                  (Redirect "sales"
                     (cart_flashes c ++
                        [("Multi-item sale " +:+ inv +:+ " created successfully!",
                          "success")]),
                   {| inventory := cart_inventory c;
                      customers := cs;
                      sales := <[sid := sale']> (sales db);
                      sale_items := rows |})
            end
      | _, _, _ => (Redirect "sales" [error_creating_sale], db)
      end
  end.

Definition create_multi_item_sale (u : User) (now : datetime)
    (req : MultiItemRequest) (db : DB) : Response * DB :=
  if negb (has_permission u "create_sales") then
    (Redirect "sales"
       [("You do not have permission to create sales", "danger")], db)
  else if negb (mi_csrf_valid req) then
    (Redirect "sales" [("Security token expired. Please try again.", "danger")],
     db)
  else create_multi_item_sale_txn u now req db.

(** ** Voiding a sale ([void_sale]) *)

Definition set_voided (s : Sale) (now : datetime) (actor : Z) (reason : string)
  : Sale :=
  {| invoice_number := invoice_number s;
     sale_date := sale_date s;
     customer_id := customer_id s;
     total_sale_price := total_sale_price s;
     total_discount_amount := total_discount_amount s;
     final_total_price := final_total_price s;
     payment_method := payment_method s;
     payment_receiver := payment_receiver s;
     payment_status := "voided";
     notes := notes s;
     zelle_payment := zelle_payment s;
     sold_by := sold_by s;
     payment_confirmed_at := payment_confirmed_at s;
     payment_confirmed_by := payment_confirmed_by s;
     payment_proof_file := payment_proof_file s;
     voided_at := Some now;
     voided_by := Some actor;
     void_reason := Some reason;
     inventory_id := inventory_id s;
     quantity_sold := quantity_sold s;
     sale_price := sale_price s;
     discount_percentage := discount_percentage s;
     final_price := final_price s |}.

(** The legacy single item of the sale goes back to stock.  [None] is the
    [TypeError] of [quantity += None]. *)
Definition void_legacy_item (s : Sale) (inv : gmap Z InventoryItem)
  : option (gmap Z InventoryItem) :=
  match inventory_id s with
  | Some i =>
      if bool_decide (i = 0) then Some inv
      else
        match inv !! i with
        | Some it =>
            match quantity_sold s with
            | Some q => Some (<[i := give_back it q]> inv)
            | None => None
            end
        | None => Some inv
        end
  | None => Some inv
  end.

(** One line of a multi-item sale goes back to stock. *)
Definition void_line (inv : gmap Z InventoryItem) (si : SaleItem)
  : gmap Z InventoryItem :=
  match inv !! si_inventory_id si with
  | Some it => <[si_inventory_id si := give_back it (si_quantity_sold si)]> inv
  | None => inv
  end.

(** [void_sale] past its permission check. *)
Definition void_sale_txn (u : User) (now : datetime) (sale_id : Z)
    (void_reason_field : string) (db : DB) : Response * DB :=
  match sales db !! sale_id with
  | None => (Abort 404, db)
  | Some sale =>
      if bool_decide (payment_status sale = "voided") then
        (Redirect "sales" [("Sale is already voided", "warning")], db)
      else
        let reason := strip void_reason_field in
        if bool_decide (reason = "") then
          (Redirect "sales" [("Void reason is required", "danger")], db)
        else
          match void_legacy_item sale (inventory db) with
          | None =>
              (Redirect "sales"
                 [("Error voiding sale. Please try again.", "danger")], db)
          | Some inv =>
              (Redirect "sales"
                 [("Sale " +:+ invoice_number sale
                   +:+ " has been voided. Items returned to inventory.",
                   "success")],
               {| inventory :=
                    foldl void_line inv (sale_items_of sale_id (sale_items db));
                  customers := customers db;
                  sales :=
                    <[sale_id := set_voided sale now (user_id u) reason]>
                      (sales db);
                  sale_items := sale_items db |})
          end
  end.

Definition void_sale (u : User) (now : datetime) (sale_id : Z)
    (void_reason_field : string) (db : DB) : Response * DB :=
  if negb (has_permission u "void_sales") then
    (Redirect "sales" [("You do not have permission to void sales", "danger")],
     db)
  else void_sale_txn u now sale_id void_reason_field db.

(** ** Confirming a payment ([confirm_payment]) *)

(** The submitted [PaymentConfirmationForm].  [cf_validates] is
    [form.validate_on_submit()]; [cf_proof_filename] is the name the uploaded
    proof was saved under, if a file of an allowed type came with the form. *)
Record ConfirmRequest : Type := mk_ConfirmRequest {
  cf_validates : bool;
  cf_proof_filename : option string;
  cf_confirmation_notes : option string
}.

Definition newline : string := String (ascii_of_N 10) EmptyString.

(** [now.strftime('%Y-%m-%d %H:%M')] *)
Definition strftime_Ymd_HM (d : datetime) : string :=
  format_0d 4 (dt_year d) +:+ "-" +:+ format_0d 2 (dt_month d) +:+ "-"
  +:+ format_0d 2 (dt_day d) +:+ " " +:+ format_0d 2 (dt_hour d) +:+ ":"
  +:+ format_0d 2 (dt_minute d).

(** Truth of a nullable text: [None] and the empty text are false. *)
Definition truthy (s : option string) : bool :=
  match s with
  | Some (String _ _) => true
  | _ => false
  end.

Definition confirmation_notes (u : User) (now : datetime) (req : ConfirmRequest)
    (old : option string) : option string :=
  match cf_confirmation_notes req with
  | Some (String _ _ as n) =>
      let note :=
        newline +:+ "[Payment Confirmed by " +:+ username u +:+ " on "
        +:+ strftime_Ymd_HM now +:+ "]: " +:+ n in
      match old with
      | Some (String _ _ as o) => Some (o +:+ note)
      | _ => Some (strip note)
      end
  | _ => old
  end.

Definition set_confirmed (s : Sale) (u : User) (now : datetime)
    (req : ConfirmRequest) : Sale :=
  {| invoice_number := invoice_number s;
     sale_date := sale_date s;
     customer_id := customer_id s;
     total_sale_price := total_sale_price s;
     total_discount_amount := total_discount_amount s;
     final_total_price := final_total_price s;
     payment_method := payment_method s;
     payment_receiver := payment_receiver s;
     payment_status := "received";
     notes := confirmation_notes u now req (notes s);
     zelle_payment := zelle_payment s;
     sold_by := sold_by s;
     payment_confirmed_at := Some now;
     payment_confirmed_by := Some (user_id u);
     payment_proof_file := cf_proof_filename req;
     voided_at := voided_at s;
     voided_by := voided_by s;
     void_reason := void_reason s;
     inventory_id := inventory_id s;
     quantity_sold := quantity_sold s;
     sale_price := sale_price s;
     discount_percentage := discount_percentage s;
     final_price := final_price s |}.

Definition confirm_payment (u : User) (now : datetime) (sale_id : Z)
    (req : ConfirmRequest) (db : DB) : Response * DB :=
  if negb (has_permission u "reconcile_payments") then
    (Redirect "dashboard"
       [("You do not have permission to reconcile payments", "danger")], db)
  else
    match sales db !! sale_id with
    | None => (Abort 404, db)
    | Some sale =>
        if cf_validates req then
          (Redirect "reconciliation"
             [("Payment confirmed for Invoice #" +:+ invoice_number sale +:+ "!",
               "success")],
           {| inventory := inventory db;
              customers := customers db;
              sales := <[sale_id := set_confirmed sale u now req]> (sales db);
              sale_items := sale_items db |})
        else (Render "confirm_payment.html", db)
    end.

(** ** Creating a single item sale ([add_sale]) *)

Record SaleForm : Type := mk_SaleForm {
  sf_submitted : bool;
  sf_customer_id : option Z;
  sf_customer_name : option string;
  sf_customer_email : option string;
  sf_customer_phone : option string;
  sf_inventory_id : option Z;
  sf_quantity_to_sell : option Z;
  sf_discount_percentage : option Decimal;
  sf_payment_method : string;
  sf_payment_receiver : string;
  sf_notes : string;
  sf_zelle_payment : bool
}.

Definition payment_methods : list string :=
  ["cash"; "check"; "card"; "transfer"; "zelle"].

(** [form.validate_on_submit()] for [SaleForm]: a submitted form whose fields
    pass their validators.  The customer, when given, is one of the choices;
    the item is one of the available items; the quantity is at least 1; the
    discount, when given, lies between 0 and 100; the payment method is one
    of the choices; the receiver is not blank and has at most 100
    characters; the notes are blank or have at most 500 characters. *)
Definition sale_form_validates (f : SaleForm) (db : DB) : bool :=
  sf_submitted f
  && match sf_customer_id f with
     | None => true
     | Some c => bool_decide (c = 0) || bool_decide (is_Some (customers db !! c))
     end
  && match sf_inventory_id f with
     | Some i =>
         negb (bool_decide (i = 0))
         && match inventory db !! i with
            | Some it => String.eqb (status it) "available"
            | None => false
            end
     | None => false
     end
  && match sf_quantity_to_sell f with
     | Some q => bool_decide (1 ≤ q)%Z
     | None => false
     end
  && match sf_discount_percentage f with
     | Some d => bool_decide (dec_of_int 0 ≤ d)%Qc && bool_decide (d ≤ dec_of_int 100)%Qc
     | None => true
     end
  && existsb (String.eqb (sf_payment_method f)) payment_methods
  && negb (String.eqb (strip (sf_payment_receiver f)) "")
  && bool_decide (String.length (sf_payment_receiver f) ≤ 100)%nat
  && (String.eqb (strip (sf_notes f)) ""
      || bool_decide (String.length (sf_notes f) ≤ 500)%nat).

(** The stock update of [add_sale]. *)
Definition sell_stock (it : InventoryItem) (q : Z) : InventoryItem :=
  let q' := quantity it - q in
  set_stock it q' (if bool_decide (q' ≤ 0)%Z then "sold" else status it).

Section LegacySale.

(** The two prices of a single item sale are computed in binary floating
    point and read back as decimals; they are parameters here:
    [Decimal(str(float(selling_price or 0) * quantity))] and
    [Decimal(str(subtotal * (1 - float(discount or 0) / 100)))]. *)
Variable float_subtotal : Decimal → Z → Decimal.
Variable float_final_price : Decimal → Z → option Decimal → Decimal.

Definition new_single_item_sale (u : User) (now : datetime) (cid i q : Z)
    (it : InventoryItem) (inv : string) (f : SaleForm) : Sale :=
  {| invoice_number := inv;
     sale_date := now;
     customer_id := cid;
     total_sale_price := dec_of_int 0;
     total_discount_amount := dec_of_int 0;
     final_total_price := dec_of_int 0;
     payment_method := sf_payment_method f;
     payment_receiver := sf_payment_receiver f;
     payment_status := "pending";
     notes := Some (sf_notes f);
     zelle_payment := sf_zelle_payment f;
     sold_by := user_id u;
     payment_confirmed_at := None;
     payment_confirmed_by := None;
     payment_proof_file := None;
     voided_at := None;
     voided_by := None;
     void_reason := None;
     inventory_id := Some i;
     quantity_sold := Some q;
     sale_price := Some (float_subtotal (selling_price it) q);
     discount_percentage := sf_discount_percentage f;
     final_price :=
       Some (float_final_price (selling_price it) q (sf_discount_percentage f)) |}.

(** The customer of a single item sale. *)
Definition add_sale_customer (f : SaleForm) (db : DB) : CustomerStep :=
  match sf_customer_id f with
  | Some (Zpos _ as c) | Some (Zneg _ as c) =>
      match customers db !! c with
      | Some _ => CustomerOk (customers db) c
      | None => CustomerRaised
      end
  | _ =>
      match sf_customer_name f with
      | Some (String _ _ as name) =>
          let id := next_id (customers db) in
          CustomerOk
            (<[id := {| customer_name := name;
                        customer_email := sf_customer_email f;
                        customer_phone := sf_customer_phone f |}]>
               (customers db))
            id
      | _ => CustomerNameMissing
      end
  end.

(** [add_sale].  It has no [try]: an exception ends the request with a
    server error and nothing is committed.  A customer id that finds no
    customer raises only where [customer.id] is read, after the stock
    check. *)
Definition add_sale (u : User) (now : datetime) (f : SaleForm) (db : DB)
  : Response * DB :=
  if negb (has_permission u "create_sales") then
    (Redirect "sales"
       [("You do not have permission to create sales", "danger")], db)
  else if negb (sale_form_validates f db) then (Render "sales.html", db)
  else
    match add_sale_customer f db with
    | CustomerNameMissing =>
        (Redirect "sales" [("Customer name is required", "danger")], db)
    | customer =>
        match sf_inventory_id f, sf_quantity_to_sell f with
        | Some i, Some q =>
            match inventory db !! i with
            | None =>
                (Redirect "sales" [("Inventory item not found", "danger")], db)
            | Some it =>
                if bool_decide (quantity it < q)%Z then
                  (Redirect "sales"
                     [("Only " +:+ pretty (quantity it) +:+ " units available",
                       "danger")], db)
                else
                  match customer,
                        generated_invoice_number now (invoice_numbers db) with
                  | CustomerOk cs cid, Some inv =>
                      if bool_decide (inv ∈ invoice_numbers db) then
                        (Abort 500, db)
                      else
                        (Redirect "sales"
                           [("Sale created successfully", "success")],
                         {| inventory := <[i := sell_stock it q]> (inventory db);
                            customers := cs;
                            sales :=
                              <[next_id (sales db) :=
                                  new_single_item_sale u now cid i q it inv f]>
                                (sales db);
                            sale_items := sale_items db |})
                  | _, _ => (Abort 500, db)
                  end
            end
        | _, _ => (Abort 500, db)
        end
    end.

End LegacySale.

(** ** Editing a sale ([edit_sale]) *)

(** The fields of the edit form: [es_customer_id] is [None] when
    [int(request.form.get('customer_id'))] raises. *)
Record EditSaleRequest : Type := mk_EditSaleRequest {
  es_customer_id : option Z;
  es_payment_method : option string;
  es_payment_receiver : option string;
  es_notes : string;
  es_zelle_payment : bool
}.

Definition set_edited (s : Sale) (cid : Z) (method receiver : string)
    (req : EditSaleRequest) : Sale :=
  {| invoice_number := invoice_number s;
     sale_date := sale_date s;
     customer_id := cid;
     total_sale_price := total_sale_price s;
     total_discount_amount := total_discount_amount s;
     final_total_price := final_total_price s;
     payment_method := method;
     payment_receiver := receiver;
     payment_status := payment_status s;
     notes := Some (es_notes req);
     zelle_payment := es_zelle_payment req;
     sold_by := sold_by s;
     payment_confirmed_at := payment_confirmed_at s;
     payment_confirmed_by := payment_confirmed_by s;
     payment_proof_file := payment_proof_file s;
     voided_at := voided_at s;
     voided_by := voided_by s;
     void_reason := void_reason s;
     inventory_id := inventory_id s;
     quantity_sold := quantity_sold s;
     sale_price := sale_price s;
     discount_percentage := discount_percentage s;
     final_price := final_price s |}.

(** [edit_sale].  The commit raises when the payment method or receiver, which
    are not nullable, is missing, and, on a database engine that checks foreign
    keys ([foreign_keys]; the engine is the one of [DATABASE_URL]), when the
    customer does not exist. *)
Definition edit_sale (foreign_keys : bool) (u : User) (sale_id : Z)
    (req : EditSaleRequest) (db : DB) : Response * DB :=
  if negb (has_permission u "edit_sales") then
    (Redirect "sales" [("You do not have permission to edit sales", "danger")],
     db)
  else
    match sales db !! sale_id with
    | None => (Abort 404, db)
    | Some sale =>
        if bool_decide (payment_status sale = "voided") then
          (Redirect "sales" [("Cannot edit a voided sale", "danger")], db)
        else
          match es_customer_id req, es_payment_method req,
                es_payment_receiver req with
          | Some cid, Some method, Some receiver =>
              if foreign_keys && bool_decide (customers db !! cid = None) then
                (Redirect "sales"
                   [("Error updating sale. Please try again.", "danger")], db)
              else
                (Redirect "sales"
                   [("Sale " +:+ invoice_number sale
                     +:+ " updated successfully", "success")],
                 {| inventory := inventory db;
                    customers := customers db;
                    sales :=
                      <[sale_id := set_edited sale cid method receiver req]>
                        (sales db);
                    sale_items := sale_items db |})
          | _, _, _ =>
              (Redirect "sales"
                 [("Error updating sale. Please try again.", "danger")], db)
          end
    end.

(** ** Deleting a sale ([admin_delete_sale]) *)

(** The stock update of [admin_delete_sale]: the units come back, and an item
    marked sold is available again. *)
Definition restore_stock (it : InventoryItem) (q : Z) : InventoryItem :=
  set_stock it (quantity it + q)
    (if String.eqb (status it) "sold" then "available" else status it).

Definition delete_line (inv : gmap Z InventoryItem) (si : SaleItem)
  : gmap Z InventoryItem :=
  match inv !! si_inventory_id si with
  | Some it =>
      <[si_inventory_id si := restore_stock it (si_quantity_sold si)]> inv
  | None => inv
  end.

(** [sale.inventory_item]: the item the legacy column points to. *)
Definition legacy_item (s : Sale) (inv : gmap Z InventoryItem)
  : option (Z * InventoryItem) :=
  match inventory_id s with
  | Some i =>
      match inv !! i with
      | Some it => Some (i, it)
      | None => None
      end
  | None => None
  end.

(** The stock a deleted sale gives back: the legacy item when there is one,
    otherwise the lines.  [None] is the [TypeError] of [quantity += None]. *)
Definition delete_restores (s : Sale) (rows : list SaleItem)
    (inv : gmap Z InventoryItem) : option (gmap Z InventoryItem) :=
  match legacy_item s inv with
  | Some (i, it) =>
      match quantity_sold s with
      | Some q => Some (<[i := restore_stock it q]> inv)
      | None => None
      end
  | None => Some (foldl delete_line inv rows)
  end.

(** [admin_delete_sale].  The sale goes with its lines (the relationship
    cascades the delete).  The audit entry is written, and the stock committed
    with it, before the sale is deleted; the database given is the one after
    both commits.  The proof file of the payment is a file system matter and
    is left out. *)
Definition admin_delete_sale (u : User) (sale_id : Z) (db : DB)
  : Response * DB :=
  if negb (String.eqb (role u) "office_admin") then
    (Redirect "history"
       [("Only office administrators can delete sale transactions", "danger")],
     db)
  else
    match sales db !! sale_id with
    | None => (Abort 404, db)
    | Some sale =>
        match delete_restores sale (sale_items_of sale_id (sale_items db))
                (inventory db) with
        | Some inv =>
            (Redirect "history"
               [("Sale transaction " +:+ invoice_number sale
                 +:+ " has been permanently deleted and inventory restored",
                 "success")],
             {| inventory := inv;
                customers := customers db;
                sales := delete sale_id (sales db);
                sale_items :=
                  filter (λ si, si_sale_id si ≠ sale_id) (sale_items db) |})
        | None =>
            (Redirect "history" [("Error deleting sale transaction", "danger")],
             db)
        end
    end.

(** ** Decidable equality of the rows *)

#[global] Instance datetime_eq_dec : EqDecision datetime.
Proof. solve_decision. Defined.
#[global] Instance InventoryItem_eq_dec : EqDecision InventoryItem.
Proof. solve_decision. Defined.
#[global] Instance Customer_eq_dec : EqDecision Customer.
Proof. solve_decision. Defined.
#[global] Instance Sale_eq_dec : EqDecision Sale.
Proof. solve_decision. Defined.
#[global] Instance SaleItem_eq_dec : EqDecision SaleItem.
Proof. solve_decision. Defined.
#[global] Instance DB_eq_dec : EqDecision DB.
Proof. solve_decision. Defined.
#[global] Instance Response_eq_dec : EqDecision Response.
Proof. solve_decision. Defined.

(** ** Statements of the specification that the code is compared with *)


(** A sale line before pricing: 3 units at 9.99 with a discount of 25 %. *)
Definition line_3_at_9_99_less_25 : SaleItem :=
  {| si_sale_id := 1;
     si_inventory_id := 1;
     si_quantity_sold := 3;
     unit_price := dec 9.99;
     line_total := dec_of_int 0;
     si_discount_percentage := dec 25;
     discount_amount := dec_of_int 0;
     final_line_total := dec_of_int 0 |}.

(** The specification's statement on a sale without lines: the three totals
    are zero. *)
Definition empty_totals_are_zero (s : Sale) : Prop :=
  let r := calculate_totals [] s in
  total_sale_price r = dec_of_int 0
  ∧ total_discount_amount r = dec_of_int 0
  ∧ final_total_price r = dec_of_int 0.

(** ** Example data *)

Definition new_year_noon : datetime := mk_datetime 2025 1 1 12 0 0.

Definition admin : User := mk_User 1 "admin" "office_admin".

Definition widget (q : Z) (st : string) : InventoryItem :=
  {| item_type := "Widget";
     source_location := "Warehouse";
     quantity := q;
     purchase_cost := dec 4.00;
     retail_price := None;
     selling_price := dec 9.99;
     item_discount_percentage := 0;
     status := st |}.

Definition gadget (q : Z) (st : string) : InventoryItem :=
  {| item_type := "Gadget";
     source_location := "Warehouse";
     quantity := q;
     purchase_cost := dec 10.00;
     retail_price := None;
     selling_price := dec 20.00;
     item_discount_percentage := 0;
     status := st |}.

Definition alice : Customer :=
  {| customer_name := "Alice";
     customer_email := None;
     customer_phone := None |}.

(** A single item sale of 5 widgets as [add_sale] leaves it, in the given
    payment status. *)
Definition single_item_sale (st : string) : Sale :=
  {| invoice_number := "INV20250101-0001";
     sale_date := new_year_noon;
     customer_id := 1;
     total_sale_price := dec_of_int 0;
     total_discount_amount := dec_of_int 0;
     final_total_price := dec_of_int 0;
     payment_method := "cash";
     payment_receiver := "Bob";
     payment_status := st;
     notes := Some "";
     zelle_payment := false;
     sold_by := 1;
     payment_confirmed_at := None;
     payment_confirmed_by := None;
     payment_proof_file := None;
     voided_at := None;
     voided_by := None;
     void_reason := None;
     inventory_id := Some 1;
     quantity_sold := Some 5;
     sale_price := Some (dec 50);
     discount_percentage := Some (dec 10);
     final_price := Some (dec 45) |}.

(** A database with one customer, two items and one single item sale. *)
Definition shop (st : string) : DB :=
  {| inventory := {[ 1 := widget 5 "available"; 2 := gadget 1 "available" ]};
     customers := {[ 1 := alice ]};
     sales := {[ 1 := single_item_sale st ]};
     sale_items := [] |}.

Definition confirmation : ConfirmRequest :=
  {| cf_validates := true;
     cf_proof_filename := None;
     cf_confirmation_notes := None |}.


(** Two inventory items that differ at most in quantity and status. *)
Definition same_item_but_stock (a b : InventoryItem) : Prop :=
  item_type a = item_type b
  ∧ source_location a = source_location b
  ∧ purchase_cost a = purchase_cost b
  ∧ retail_price a = retail_price b
  ∧ selling_price a = selling_price b
  ∧ item_discount_percentage a = item_discount_percentage b.

(** Two inventories with the same items, up to quantity and status. *)
Definition same_inventory_but_stock (m1 m2 : gmap Z InventoryItem) : Prop :=
  ∀ i, option_Forall2 same_item_but_stock (m1 !! i) (m2 !! i).

(** A request for a multi-item sale to customer 1, paid in cash. *)
Definition cash_request (lines : list SaleLine) : MultiItemRequest :=
  {| mi_csrf_valid := true;
     mi_customer_id := CustomerExisting 1;
     mi_new_customer_name := "";
     mi_new_customer_email := "";
     mi_new_customer_phone := "";
     mi_payment_method := Some "cash";
     mi_payment_receiver := Some "Bob";
     mi_notes := "";
     mi_zelle_payment := false;
     mi_lines := lines |}.

(** Two widgets, of which there are five, and three gadgets, of which there
    is one. *)
Definition overdrawn_lines : list SaleLine :=
  [ Line (mk_LineRequest 1 2 (dec 9.99) (dec 0));
    Line (mk_LineRequest 2 3 (dec 20.00) (dec 0)) ].

(** Two widgets with a discount of 150 %. *)
Definition overdiscounted_lines : list SaleLine :=
  [ Line (mk_LineRequest 1 2 (dec 9.99) (dec 150)) ].

(** ** Valid lines *)

(** The units the lines of a request ask of item [i]. *)
Definition requested (i : Z) (ls : list LineRequest) : Z :=
  foldr (λ l acc, if bool_decide (lr_inventory_id l = i)
                  then lr_quantity l + acc else acc) 0 ls.

(** Every line asks for a positive quantity of an item in stock, and the
    lines on one item together ask for no more than it holds: each line finds
    its quantity in stock when its turn comes. *)
Definition lines_valid (inv : gmap Z InventoryItem) (ls : list LineRequest)
  : Prop :=
  ∀ l, l ∈ ls →
    0 < lr_quantity l
    ∧ ∃ it, inv !! lr_inventory_id l = Some it
            ∧ requested (lr_inventory_id l) ls ≤ quantity it.

(** An item after the lines [ls] were sold. *)
Definition after_sale (ls : list LineRequest) (i : Z) (it : InventoryItem)
  : InventoryItem :=
  set_stock it (quantity it - requested i ls)
    (if bool_decide (0 < requested i ls ∧ quantity it = requested i ls)
     then "sold" else status it).


(** Every sale line belongs to a sale of the table (the foreign key of
    [sale_item.sale_id]). *)
Definition sale_items_integrity (db : DB) : Prop :=
  ∀ si, si ∈ sale_items db → is_Some (sales db !! si_sale_id si).



(** The success message of [create_multi_item_sale]. *)
Definition sale_created (inv : string) : Response :=
  Redirect "sales"
    [("Multi-item sale " +:+ inv +:+ " created successfully!", "success")].

(** The success message of [void_sale]. *)
Definition sale_voided (inv : string) : Response :=
  Redirect "sales"
    [("Sale " +:+ inv +:+ " has been voided. Items returned to inventory.",
      "success")].

(** A request past the checks that do not concern its lines: the user may
    create sales, the token is valid, the customer is found or made, an
    invoice number that is not taken is generated, and the payment method and
    receiver are given. *)
Definition request_accepted (u : User) (now : datetime) (req : MultiItemRequest)
    (db : DB) (cs : gmap Z Customer) (cid : Z) (inv method receiver : string)
  : Prop :=
  has_permission u "create_sales" = true
  ∧ mi_csrf_valid req = true
  ∧ multi_item_customer req db = CustomerOk cs cid
  ∧ generated_invoice_number now (invoice_numbers db) = Some inv
  ∧ (inv ∉ invoice_numbers db)
  ∧ mi_payment_method req = Some method
  ∧ mi_payment_receiver req = Some receiver.

(** One widget with 10 % discount and one gadget. *)
Definition valid_lines : list LineRequest :=
  [ mk_LineRequest 1 2 (dec 9.99) (dec 10);
    mk_LineRequest 2 1 (dec 20.00) (dec 0) ].



(** ** Invoice numbers of a day *)

(** The invoice number with sequence [n] on the day of [today]. *)
Definition day_invoice (today : datetime) (n : N) : string :=
  invoice_prefix today +:+ "-" +:+ format_0d 4 n.

(** The form the specification gives an invoice number: the prefix of the
    day, a dash and four characters. *)
Definition four_digit_invoice (today : datetime) (s : string) : Prop :=
  ∃ d, String.length d = 4%nat ∧ s = invoice_prefix today +:+ "-" +:+ d.

(** The invoice numbers in the table that carry the prefix of the day are
    numbers of that day with a sequence of four digits. *)
Definition day_numbers_well_formed (today : datetime) (existing : list string)
  : Prop :=
  ∀ s, s ∈ existing → String.prefix (invoice_prefix today) s = true →
    ∃ n, (n ≤ 9999)%N ∧ s = day_invoice today n.

Definition next_day_noon : datetime := mk_datetime 2025 1 2 12 0 0.

(** The highest of a list of sequence numbers, 0 for none. *)
Definition max_sequence (ns : list N) : N := foldr N.max 0%N ns.







(** ** Further notions *)

#[global] Instance LineRequest_eq_dec : EqDecision LineRequest.
Proof. solve_decision. Defined.
#[global] Instance SaleLine_eq_dec : EqDecision SaleLine.
Proof. solve_decision. Defined.

(** The lines of a request that parse, in order. *)
Definition parsed_lines (lines : list SaleLine) : list LineRequest :=
  omap (λ x, match x with Line l => Some l | _ => None end) lines.

(** A request with other lines. *)
Definition with_lines (req : MultiItemRequest) (lines : list SaleLine)
  : MultiItemRequest :=
  {| mi_csrf_valid := mi_csrf_valid req;
     mi_customer_id := mi_customer_id req;
     mi_new_customer_name := mi_new_customer_name req;
     mi_new_customer_email := mi_new_customer_email req;
     mi_new_customer_phone := mi_new_customer_phone req;
     mi_payment_method := mi_payment_method req;
     mi_payment_receiver := mi_payment_receiver req;
     mi_notes := mi_notes req;
     mi_zelle_payment := mi_zelle_payment req;
     mi_lines := lines |}.

(** No item holds a negative quantity. *)
Definition stock_nonneg (inv : gmap Z InventoryItem) : Prop :=
  ∀ i it, inv !! i = Some it → 0 ≤ quantity it.

(** The units the lines of a sale give back to item [i]. *)
Definition returned (i : Z) (rows : list SaleItem) : Z :=
  foldr (λ si acc, if bool_decide (si_inventory_id si = i)
                   then si_quantity_sold si + acc else acc) 0 rows.

(** A text of white space only. *)
Fixpoint all_space (s : string) : bool :=
  match s with
  | EmptyString => true
  | String c s' => is_space c && all_space s'
  end.

(** A date whose year has at most four digits and whose month and day have
    at most two, as every [datetime] has. *)
Definition valid_date (d : datetime) : Prop :=
  (dt_year d < 10000)%N ∧ (dt_month d < 100)%N ∧ (dt_day d < 100)%N.

Definition same_day (d d' : datetime) : Prop :=
  dt_year d = dt_year d' ∧ dt_month d = dt_month d' ∧ dt_day d = dt_day d'.

(** A database whose day has used the sequences 9999 and 10000. *)
Definition full_day_shop : DB :=
  {| inventory := {[ 1 := widget 5 "available" ]};
     customers := {[ 1 := alice ]};
     sales :=
       {[ 1 := set_invoice_number (single_item_sale "pending")
                 "INV20250101-9999";
          2 := set_invoice_number (single_item_sale "pending")
                 "INV20250101-10000" ]};
     sale_items := [] |}.

(** The units the legacy column of a sale gives back to item [i]. *)
Definition legacy_returned (s : Sale) (i : Z) : Z :=
  match inventory_id s, quantity_sold s with
  | Some j, Some q => if bool_decide (j = i ∧ j ≠ 0) then q else 0
  | _, _ => 0
  end.

(** Item [i] is named by the legacy column or by a line of the sale. *)
Definition named_by (s : Sale) (rows : list SaleItem) (i : Z) : Prop :=
  (inventory_id s = Some i ∧ i ≠ 0) ∨ i ∈ si_inventory_id <$> rows.

#[global] Instance named_by_dec (s : Sale) (rows : list SaleItem) (i : Z) :
  Decision (named_by s rows i).
Proof. unfold named_by. apply _. Defined.

(** A confirmation that comes with notes. *)
Definition noted_confirmation : ConfirmRequest :=
  {| cf_validates := true;
     cf_proof_filename := Some "payment_proof_1_20250101_120000_slip.pdf";
     cf_confirmation_notes := Some "paid at the counter" |}.

(** The answer of [admin_delete_sale] when the sale is deleted. *)
Definition sale_deleted (inv : string) : Response :=
  Redirect "history"
    [("Sale transaction " +:+ inv
      +:+ " has been permanently deleted and inventory restored", "success")].

(** The fields of a sale that [edit_sale] leaves alone. *)
Definition same_sale_but_edited (a b : Sale) : Prop :=
  invoice_number a = invoice_number b
  ∧ sale_date a = sale_date b
  ∧ total_sale_price a = total_sale_price b
  ∧ total_discount_amount a = total_discount_amount b
  ∧ final_total_price a = final_total_price b
  ∧ payment_status a = payment_status b
  ∧ sold_by a = sold_by b
  ∧ payment_confirmed_at a = payment_confirmed_at b
  ∧ payment_confirmed_by a = payment_confirmed_by b
  ∧ payment_proof_file a = payment_proof_file b
  ∧ voided_at a = voided_at b
  ∧ voided_by a = voided_by b
  ∧ void_reason a = void_reason b
  ∧ inventory_id a = inventory_id b
  ∧ quantity_sold a = quantity_sold b
  ∧ sale_price a = sale_price b
  ∧ discount_percentage a = discount_percentage b
  ∧ final_price a = final_price b.

Definition clerk : User := mk_User 2 "clerk" "sales_staff".

(** Stand-ins for the two float computations of [add_sale], for concrete
    runs: the exact products. *)
Definition exact_subtotal (p : Decimal) (q : Z) : Decimal :=
  (p * dec_of_int q)%Qc.

Definition exact_final_price (p : Decimal) (q : Z) (d : option Decimal)
  : Decimal :=
  (p * dec_of_int q * (1 - default (dec_of_int 0) d / dec_of_int 100))%Qc.

(** A form for [q] widgets at [d] percent discount, for customer 1. *)
Definition widget_form (q : Z) (d : Decimal) : SaleForm :=
  {| sf_submitted := true;
     sf_customer_id := Some 1;
     sf_customer_name := None;
     sf_customer_email := None;
     sf_customer_phone := None;
     sf_inventory_id := Some 1;
     sf_quantity_to_sell := Some q;
     sf_discount_percentage := Some d;
     sf_payment_method := "cash";
     sf_payment_receiver := "Bob";
     sf_notes := "";
     sf_zelle_payment := false |}.

(** The fields of a sale that [confirm_payment] leaves alone. *)
Definition same_sale_but_confirmed (a b : Sale) : Prop :=
  invoice_number a = invoice_number b
  ∧ sale_date a = sale_date b
  ∧ customer_id a = customer_id b
  ∧ total_sale_price a = total_sale_price b
  ∧ total_discount_amount a = total_discount_amount b
  ∧ final_total_price a = final_total_price b
  ∧ payment_method a = payment_method b
  ∧ payment_receiver a = payment_receiver b
  ∧ zelle_payment a = zelle_payment b
  ∧ sold_by a = sold_by b
  ∧ voided_at a = voided_at b
  ∧ voided_by a = voided_by b
  ∧ void_reason a = void_reason b
  ∧ inventory_id a = inventory_id b
  ∧ quantity_sold a = quantity_sold b
  ∧ sale_price a = sale_price b
  ∧ discount_percentage a = discount_percentage b
  ∧ final_price a = final_price b.

(** A shop whose sale has notes. *)
Definition noted_sale : Sale :=
  set_edited (single_item_sale "pending") 1 "cash" "Bob"
    (mk_EditSaleRequest (Some 1) (Some "cash") (Some "Bob")
       "call before delivery" false).

Definition noted_shop : DB :=
  {| inventory := inventory (shop "pending");
     customers := customers (shop "pending");
     sales := {[ 1 := noted_sale ]};
     sale_items := [] |}.

(** * Properties *)

Ltac by_computation := apply (bool_decide_unpack _); vm_compute; reflexivity.

(** ** Pricing *)

Lemma calculate_line_totals_example :
  let r := calculate_line_totals line_3_at_9_99_less_25 in
  line_total r = dec 29.97
  ∧ discount_amount r = dec 7.4925
  ∧ final_line_total r = dec 22.4775.
Proof. repeat split; by_computation. Qed.



Lemma dec_zero : dec 0.00 = dec_of_int 0.
Proof. by_computation. Qed.

(** C9, counterexample: a single item sale has no lines, and
    [calculate_totals] gives it its legacy prices, 50 and 45, as totals. *)
Lemma empty_totals_not_zero_for_legacy_sale :
  ¬ empty_totals_are_zero (single_item_sale "pending").
Proof. intros (H & _). revert H. by_computation. Qed.

(** C9, as amended: on a sale without lines [calculate_totals] sets the total
    and the final total to the legacy sale price and final price, zero when
    these are unset, and leaves the discount total as it was; all three
    totals are zero for a multi-item sale as [create_multi_item_sale] sets it
    up. *)
Theorem calculate_totals_no_lines :
  (∀ s : Sale,
     let r := calculate_totals [] s in
     total_sale_price r = or_zero (sale_price s)
     ∧ total_discount_amount r = total_discount_amount s
     ∧ final_total_price r = or_zero (final_price s))
  ∧ (∀ u now cid inv method receiver req,
       let r := calculate_totals []
                  (new_multi_item_sale u now cid inv method receiver req) in
       total_sale_price r = dec_of_int 0
       ∧ total_discount_amount r = dec_of_int 0
       ∧ final_total_price r = dec_of_int 0).
Proof.
  split; [done|].
  intros. repeat split; try done. apply dec_zero.
Qed.

(** ** Voiding *)

(** No role carries the permission [void_sale] asks for: the permission
    table does not list it. *)
Lemma void_sales_not_granted (u : User) : has_permission u "void_sales" = false.
Proof.
  unfold has_permission, permissions.
  repeat case_match; reflexivity.
Qed.

(** C7: on a sale whose payment status is already voided, [void_sale] (past
    its permission check) answers that the sale is already voided and leaves
    the database, so the sale and every inventory item, as it was; the
    handler as a whole leaves the database as it was, too. *)
Theorem void_sale_already_voided (u : User) (now : datetime) (sale_id : Z)
    (reason : string) (db : DB) (sale : Sale) :
  sales db !! sale_id = Some sale →
  payment_status sale = "voided" →
  void_sale_txn u now sale_id reason db
  = (Redirect "sales" [("Sale is already voided", "warning")], db)
  ∧ (void_sale u now sale_id reason db).2 = db.
Proof.
  intros Hsale Hst.
  assert (void_sale_txn u now sale_id reason db
          = (Redirect "sales" [("Sale is already voided", "warning")], db))
    as Htxn.
  { unfold void_sale_txn. rewrite Hsale. by rewrite bool_decide_eq_true_2. }
  split; [exact Htxn|].
  unfold void_sale. destruct (has_permission u "void_sales"); [|done].
  cbn [negb]. by rewrite Htxn.
Qed.

Lemma void_sale_already_voided_witness :
  void_sale_txn admin new_year_noon 1 "duplicate" (shop "voided")
  = (Redirect "sales" [("Sale is already voided", "warning")], shop "voided")
  ∧ (void_sale admin new_year_noon 1 "duplicate" (shop "voided")).2
    = shop "voided".
Proof.
  apply (void_sale_already_voided _ _ _ _ _ (single_item_sale "voided"));
    reflexivity.
Defined.

Lemma same_item_but_stock_refl (a : InventoryItem) : same_item_but_stock a a.
Proof. by repeat split. Qed.

Lemma same_item_but_stock_trans (a b c : InventoryItem) :
  same_item_but_stock a b → same_item_but_stock b c → same_item_but_stock a c.
Proof.
  intros (?&?&?&?&?&?) (?&?&?&?&?&?). repeat split; congruence.
Qed.

Lemma same_item_set_stock (a : InventoryItem) (q : Z) (st : string) :
  same_item_but_stock a (set_stock a q st).
Proof. by repeat split. Qed.

Lemma same_inventory_refl (m : gmap Z InventoryItem) :
  same_inventory_but_stock m m.
Proof.
  intros i. destruct (m !! i); constructor. apply same_item_but_stock_refl.
Qed.

Lemma same_inventory_trans (m1 m2 m3 : gmap Z InventoryItem) :
  same_inventory_but_stock m1 m2 → same_inventory_but_stock m2 m3 →
  same_inventory_but_stock m1 m3.
Proof.
  intros H12 H23 i. specialize (H12 i). specialize (H23 i).
  destruct H12 as [a b Hab|]; inversion H23; subst; constructor.
  eapply same_item_but_stock_trans; eauto.
Qed.

(** Changing the stock of one item keeps the inventory, up to stock. *)
Lemma same_inventory_insert (m : gmap Z InventoryItem) (i : Z)
    (it : InventoryItem) (q : Z) (st : string) :
  m !! i = Some it →
  same_inventory_but_stock m (<[i := set_stock it q st]> m).
Proof.
  intros Hi j. destruct (decide (i = j)) as [<-|Hne].
  - rewrite lookup_insert_eq, Hi. constructor. apply same_item_set_stock.
  - rewrite lookup_insert_ne by done. apply same_inventory_refl.
Qed.

Lemma void_line_same_inventory (m : gmap Z InventoryItem) (si : SaleItem) :
  same_inventory_but_stock m (void_line m si).
Proof.
  unfold void_line. destruct (m !! si_inventory_id si) as [it|] eqn:Hi.
  - by apply same_inventory_insert.
  - apply same_inventory_refl.
Qed.

Lemma void_lines_same_inventory (rows : list SaleItem)
    (m : gmap Z InventoryItem) :
  same_inventory_but_stock m (foldl void_line m rows).
Proof.
  revert m. induction rows as [|si rows IH]; intros m; simpl.
  - apply same_inventory_refl.
  - eapply same_inventory_trans; [apply void_line_same_inventory|apply IH].
Qed.

Lemma void_legacy_item_same_inventory (s : Sale) (m m' : gmap Z InventoryItem) :
  void_legacy_item s m = Some m' → same_inventory_but_stock m m'.
Proof.
  unfold void_legacy_item. intros H.
  repeat case_match; simplify_eq; try apply same_inventory_refl.
  by apply same_inventory_insert.
Qed.

(** Items the sale does not name keep their stock. *)
Lemma void_line_other (m : gmap Z InventoryItem) (si : SaleItem) (i : Z) :
  si_inventory_id si ≠ i → void_line m si !! i = m !! i.
Proof.
  intros Hne. unfold void_line.
  destruct (m !! si_inventory_id si); [|done]. by apply lookup_insert_ne.
Qed.

Lemma void_lines_other (rows : list SaleItem) (m : gmap Z InventoryItem)
    (i : Z) :
  (∀ si, si ∈ rows → si_inventory_id si ≠ i) →
  foldl void_line m rows !! i = m !! i.
Proof.
  revert m. induction rows as [|si rows IH]; intros m Hne; [done|].
  cbn [foldl]. rewrite IH by (intros; apply Hne; by right).
  apply void_line_other, Hne. by left.
Qed.

Lemma void_legacy_item_other (s : Sale) (m m' : gmap Z InventoryItem) (i : Z) :
  void_legacy_item s m = Some m' → inventory_id s ≠ Some i →
  m' !! i = m !! i.
Proof.
  unfold void_legacy_item. intros H Hne.
  repeat case_match; simplify_eq; try done.
  apply lookup_insert_ne. congruence.
Qed.

(** A sale that is not a legacy sale, or whose legacy quantity is set, is
    voided without an exception. *)
Lemma void_legacy_item_total (s : Sale) (m : gmap Z InventoryItem) :
  inventory_id s = None ∨ is_Some (quantity_sold s) →
  is_Some (void_legacy_item s m).
Proof.
  unfold void_legacy_item. intros [->|[q ->]]; [done|].
  repeat case_match; done.
Qed.

(** C10: a void that goes through (the sale exists and is not voided, the
    reason is not blank and the legacy quantity, if the sale has a legacy
    item, is set) rewrites in the sale only the payment status, the void
    time, the voiding user and the void reason; every other column of the
    sale, the other sales, the sale lines and the customers are as before;
    the inventory items differ at most in quantity and status, and the items
    the sale does not name are as before. *)
Theorem void_sale_frame (u : User) (now : datetime) (sale_id : Z)
    (reason : string) (db : DB) (sale : Sale) :
  sales db !! sale_id = Some sale →
  payment_status sale ≠ "voided" →
  strip reason ≠ "" →
  inventory_id sale = None ∨ is_Some (quantity_sold sale) →
  ∃ db' sale',
    void_sale_txn u now sale_id reason db
    = (Redirect "sales"
         [("Sale " +:+ invoice_number sale
           +:+ " has been voided. Items returned to inventory.", "success")],
       db')
    ∧ sales db' !! sale_id = Some sale'
    ∧ payment_status sale' = "voided"
    ∧ voided_at sale' = Some now
    ∧ voided_by sale' = Some (user_id u)
    ∧ void_reason sale' = Some (strip reason)
    ∧ invoice_number sale' = invoice_number sale
    ∧ customer_id sale' = customer_id sale
    ∧ total_sale_price sale' = total_sale_price sale
    ∧ total_discount_amount sale' = total_discount_amount sale
    ∧ final_total_price sale' = final_total_price sale
    ∧ sale_date sale' = sale_date sale
    ∧ payment_method sale' = payment_method sale
    ∧ payment_receiver sale' = payment_receiver sale
    ∧ notes sale' = notes sale
    ∧ zelle_payment sale' = zelle_payment sale
    ∧ sold_by sale' = sold_by sale
    ∧ payment_confirmed_at sale' = payment_confirmed_at sale
    ∧ payment_confirmed_by sale' = payment_confirmed_by sale
    ∧ payment_proof_file sale' = payment_proof_file sale
    ∧ inventory_id sale' = inventory_id sale
    ∧ quantity_sold sale' = quantity_sold sale
    ∧ sale_price sale' = sale_price sale
    ∧ discount_percentage sale' = discount_percentage sale
    ∧ final_price sale' = final_price sale
    ∧ (∀ k, k ≠ sale_id → sales db' !! k = sales db !! k)
    ∧ sale_items db' = sale_items db
    ∧ customers db' = customers db
    ∧ same_inventory_but_stock (inventory db) (inventory db')
    ∧ (∀ i, inventory_id sale ≠ Some i →
         (∀ si, si ∈ sale_items_of sale_id (sale_items db) →
            si_inventory_id si ≠ i) →
         inventory db' !! i = inventory db !! i).
Proof.
  intros Hsale Hst Hreason Hlegacy.
  destruct (void_legacy_item_total sale (inventory db) Hlegacy) as [inv Hinv].
  unfold void_sale_txn. rewrite Hsale.
  rewrite bool_decide_eq_false_2 by done.
  rewrite bool_decide_eq_false_2 by done.
  rewrite Hinv.
  eexists _, _. split; [reflexivity|]. cbn [sales].
  split; [apply lookup_insert_eq|].
  repeat (split; [reflexivity|]).
  split; [intros k Hk; by apply lookup_insert_ne|].
  repeat (split; [reflexivity|]). cbn [inventory]. split.
  - eapply same_inventory_trans;
      [by eapply void_legacy_item_same_inventory
      |apply void_lines_same_inventory].
  - intros i Hleg Hrows. rewrite void_lines_other by done.
    by eapply void_legacy_item_other.
Qed.

Lemma void_sale_frame_witness :
  ∃ db' sale',
    void_sale_txn admin new_year_noon 1 " returned " (shop "pending")
    = (Redirect "sales"
         [("Sale INV20250101-0001 has been voided. Items returned to inventory.",
           "success")], db')
    ∧ sales db' !! 1 = Some sale'
    ∧ payment_status sale' = "voided"
    ∧ void_reason sale' = Some "returned"
    ∧ final_price sale' = Some (dec 45).
Proof.
  destruct (void_sale_frame admin new_year_noon 1 " returned " (shop "pending")
              (single_item_sale "pending"))
    as (db' & sale' & H); [reflexivity|discriminate|discriminate| |].
  - right. by eexists.
  - exists db', sale'. intuition.
Defined.

(** ** Confirming a payment *)




(** ** Creating a sale *)

(** C1, the code at the failing input: the second line asks for three
    gadgets and one is in stock; the sale is created all the same, with a
    warning, both lines are stored and the widgets of the first line leave
    the stock. *)
Lemma create_multi_item_sale_overdrawn :
  ∃ db',
    create_multi_item_sale admin new_year_noon (cash_request overdrawn_lines)
      (shop "pending")
    = (Redirect "sales"
         [("Warning: Not enough quantity for Gadget", "warning");
          ("Multi-item sale INV20250101-0002 created successfully!", "success")],
       db')
    ∧ quantity <$> inventory (shop "pending") !! 1 = Some 5
    ∧ quantity <$> inventory db' !! 1 = Some 3
    ∧ quantity <$> inventory db' !! 2 = Some 1
    ∧ payment_status <$> sales db' !! 2 = Some "pending"
    ∧ si_quantity_sold <$> sale_items db' = [2; 3].
Proof. eexists. split; [reflexivity|]. repeat split. Qed.

(** C8, the code at the failing input: a line with a discount of 150 % is
    priced and stored, with a discount amount above the line total and a
    negative final total, and its widgets leave the stock. *)
Lemma create_multi_item_sale_overdiscounted :
  ∃ db',
    create_multi_item_sale admin new_year_noon
      (cash_request overdiscounted_lines) (shop "pending")
    = (Redirect "sales"
         [("Multi-item sale INV20250101-0002 created successfully!", "success")],
       db')
    ∧ quantity <$> inventory db' !! 1 = Some 3
    ∧ final_total_price <$> sales db' !! 2 = Some (dec (-9.99))
    ∧ discount_amount <$> sale_items db' = [dec 29.97]
    ∧ final_line_total <$> sale_items db' = [dec (-9.99)].
Proof.
  eexists. split; [reflexivity|].
  repeat split; by_computation.
Qed.

(** *** Fresh primary keys *)

Lemma next_id_above {A} (m : gmap Z A) (k : Z) :
  is_Some (m !! k) → k < next_id m.
Proof.
  intros [a Hk]. unfold next_id.
  apply elem_of_map_to_list in Hk.
  assert (k ∈ (map_to_list m).*1) as Hin.
  { apply list_elem_of_fmap. by exists (k, a). }
  revert Hin. generalize ((map_to_list m).*1). intros l.
  induction l as [|x l IH]; intros Hin; [by apply elem_of_nil in Hin|].
  apply elem_of_cons in Hin as [->|Hin]; simpl; [lia|].
  specialize (IH Hin). lia.
Qed.

Lemma next_id_fresh {A} (m : gmap Z A) : m !! next_id m = None.
Proof.
  destruct (m !! next_id m) eqn:H; [|done].
  assert (next_id m < next_id m) by (apply next_id_above; eauto). lia.
Qed.

(** *** The loop over valid lines *)

Lemma requested_cons (i : Z) (l : LineRequest) (ls : list LineRequest) :
  requested i (l :: ls)
  = if bool_decide (lr_inventory_id l = i)
    then lr_quantity l + requested i ls else requested i ls.
Proof. reflexivity. Qed.

Lemma requested_nonneg (i : Z) (ls : list LineRequest) :
  (∀ l, l ∈ ls → 0 < lr_quantity l) → 0 ≤ requested i ls.
Proof.
  induction ls as [|l ls IH]; intros Hpos; [done|].
  rewrite requested_cons.
  assert (0 ≤ requested i ls) by (apply IH; intros; apply Hpos; by right).
  assert (0 < lr_quantity l) by (apply Hpos; by left).
  case_bool_decide; lia.
Qed.

Lemma requested_unreferenced (i : Z) (ls : list LineRequest) :
  i ∉ lr_inventory_id <$> ls → requested i ls = 0.
Proof.
  induction ls as [|l ls IH]; intros Hni; [done|].
  rewrite requested_cons. rewrite fmap_cons in Hni.
  apply not_elem_of_cons in Hni as [Hne Hni].
  rewrite bool_decide_eq_false_2 by done. by apply IH.
Qed.

(** With one line per item, the units asked of an item are those of its
    line. *)
Lemma requested_distinct (l : LineRequest) (ls : list LineRequest) :
  NoDup (lr_inventory_id <$> ls) → l ∈ ls →
  requested (lr_inventory_id l) ls = lr_quantity l.
Proof.
  induction ls as [|l' ls IH]; intros Hnd Hin; [by apply elem_of_nil in Hin|].
  rewrite fmap_cons in Hnd. apply list.NoDup_cons in Hnd as [Hni Hnd].
  rewrite requested_cons.
  apply elem_of_cons in Hin as [->|Hin].
  - rewrite bool_decide_eq_true_2 by done.
    rewrite requested_unreferenced by done. lia.
  - rewrite bool_decide_eq_false_2; [by apply IH|].
    intros Heq. apply Hni. rewrite Heq. apply list_elem_of_fmap. eauto.
Qed.

(** With one line per item, the lines are valid when each asks for a
    positive quantity that its item holds. *)
Lemma lines_valid_distinct (inv : gmap Z InventoryItem) (ls : list LineRequest) :
  NoDup (lr_inventory_id <$> ls) →
  (∀ l, l ∈ ls →
     0 < lr_quantity l
     ∧ ∃ it, inv !! lr_inventory_id l = Some it
             ∧ lr_quantity l ≤ quantity it) →
  lines_valid inv ls.
Proof.
  intros Hnd H l Hl. destruct (H l Hl) as (Hq & it & Hit & Hle).
  split; [done|]. exists it. split; [done|].
  by rewrite requested_distinct.
Qed.

Lemma set_stock_same (it : InventoryItem) :
  set_stock it (quantity it) (status it) = it.
Proof. by destruct it. Qed.

Lemma after_sale_nil (i : Z) (it : InventoryItem) : after_sale [] i it = it.
Proof.
  unfold after_sale. cbn [requested foldr].
  rewrite bool_decide_eq_false_2 by lia.
  rewrite Z.sub_0_r. apply set_stock_same.
Qed.

Lemma after_sale_unreferenced (ls : list LineRequest) (i : Z)
    (it : InventoryItem) :
  i ∉ lr_inventory_id <$> ls → after_sale ls i it = it.
Proof.
  intros Hi. unfold after_sale. rewrite requested_unreferenced by done.
  rewrite bool_decide_eq_false_2 by lia.
  rewrite Z.sub_0_r. apply set_stock_same.
Qed.

(** The loop on valid lines: no exception and no warning, one row a line, and
    every item loses the units asked of it. *)
Lemma process_lines_valid (sid : Z) (ls : list LineRequest) (c : Cart) :
  lines_valid (cart_inventory c) ls →
  ∃ inv',
    process_lines sid (Line <$> ls) c
    = Done (mk_Cart inv' (cart_rows c ++ (new_sale_item sid <$> ls))
              (cart_created c + length ls) (cart_flashes c))
    ∧ ∀ i, inv' !! i = after_sale ls i <$> cart_inventory c !! i.
Proof.
  revert c. induction ls as [|l ls IH]; intros c Hvalid.
  - exists (cart_inventory c). simpl. split.
    + destruct c; simpl. by rewrite app_nil_r, Nat.add_0_r.
    + intros i. destruct (cart_inventory c !! i); simpl; [|done].
      by rewrite after_sale_nil.
  - assert (∀ l', l' ∈ l :: ls → 0 < lr_quantity l') as Hpos
      by (intros l' Hl'; by apply Hvalid).
    destruct (Hvalid l) as (Hq & it & Hit & Hle); [by left|].
    rewrite requested_cons, bool_decide_eq_true_2 in Hle by done.
    assert (0 ≤ requested (lr_inventory_id l) ls) as Hr.
    { apply requested_nonneg. intros; apply Hpos; by right. }
    rewrite fmap_cons. cbn [process_lines].
    unfold add_line at 1. rewrite Hit. unfold take_stock.
    rewrite bool_decide_eq_true_2 by lia.
    match goal with |- context [process_lines sid _ ?c'] =>
      destruct (IH c') as (inv' & Hrun & Hinv') end.
    { intros l' Hl'. split; [apply Hpos; by right|]. cbn [cart_inventory].
      destruct (Hvalid l') as (_ & it' & Hit' & Hle'); [by right|].
      rewrite requested_cons in Hle'.
      destruct (decide (lr_inventory_id l = lr_inventory_id l')) as [Heq|Hne].
      - rewrite <- Heq in *. rewrite lookup_insert_eq.
        rewrite bool_decide_eq_true_2 in Hle' by done.
        eexists. split; [done|]. simpl. simplify_eq. lia.
      - rewrite lookup_insert_ne by done.
        rewrite bool_decide_eq_false_2 in Hle' by done. eauto. }
    exists inv'. split.
    + rewrite Hrun. cbn [cart_rows cart_created cart_flashes].
      f_equal. f_equal; [by rewrite fmap_cons, <- app_assoc|cbn [length]; lia].
    + intros i. rewrite Hinv'. cbn [cart_inventory].
      destruct (decide (lr_inventory_id l = i)) as [<-|Hne].
      * rewrite lookup_insert_eq, Hit. simpl. f_equal.
        unfold after_sale. rewrite requested_cons.
        rewrite (bool_decide_eq_true_2 (lr_inventory_id l = lr_inventory_id l))
          by done.
        cbn [set_stock quantity status].
        f_equal; [lia|].
        repeat case_bool_decide; try done; lia.
      * rewrite lookup_insert_ne by done.
        destruct (cart_inventory c !! i); simpl; [|done]. f_equal.
        unfold after_sale. rewrite requested_cons.
        by rewrite (bool_decide_eq_false_2 (lr_inventory_id l = i)) by done.
Qed.

Lemma sale_items_of_new_rows (sid : Z) (ls : list LineRequest) :
  sale_items_of sid (new_sale_item sid <$> ls) = new_sale_item sid <$> ls.
Proof.
  unfold sale_items_of. induction ls as [|l ls IH]; [done|].
  rewrite fmap_cons, filter_cons_True by done. by rewrite IH.
Qed.

Lemma sale_items_of_fresh (db : DB) :
  sale_items_integrity db →
  sale_items_of (next_id (sales db)) (sale_items db) = [].
Proof.
  intros Hint. unfold sale_items_of.
  apply elem_of_nil_inv. intros si [Heq Hsi]%list_elem_of_filter.
  pose proof (next_id_above _ _ (Hint si Hsi)) as Hlt. lia.
Qed.

Lemma sale_items_of_created (db : DB) (ls : list LineRequest) :
  sale_items_integrity db →
  sale_items_of (next_id (sales db))
    (sale_items db ++ (new_sale_item (next_id (sales db)) <$> ls))
  = new_sale_item (next_id (sales db)) <$> ls.
Proof.
  intros Hint. unfold sale_items_of. rewrite list.filter_app.
  fold (sale_items_of (next_id (sales db)) (sale_items db)).
  rewrite sale_items_of_fresh by done.
  apply sale_items_of_new_rows.
Qed.

(** The database a request with valid lines leaves behind. *)
Lemma create_multi_item_sale_valid_db (u : User) (now : datetime)
    (req : MultiItemRequest) (db : DB) (ls : list LineRequest)
    (cs : gmap Z Customer) (cid : Z) (inv method receiver : string) :
  request_accepted u now req db cs cid inv method receiver →
  mi_lines req = Line <$> ls →
  ls ≠ [] →
  lines_valid (inventory db) ls →
  sale_items_integrity db →
  ∃ stock,
    create_multi_item_sale u now req db
    = (sale_created inv,
       {| inventory := stock;
          customers := cs;
          sales :=
            <[next_id (sales db) :=
                calculate_totals (new_sale_item (next_id (sales db)) <$> ls)
                  (new_multi_item_sale u now cid inv method receiver req)]>
              (sales db);
          sale_items :=
            sale_items db ++ (new_sale_item (next_id (sales db)) <$> ls) |})
    ∧ ∀ i, stock !! i = after_sale ls i <$> inventory db !! i.
Proof.
  intros (Hperm & Hcsrf & Hcust & Hinv & Hfree & Hmethod & Hreceiver)
    Hlines Hne Hvalid Hint.
  destruct (process_lines_valid (next_id (sales db)) ls
              (mk_Cart (inventory db) [] 0 []) Hvalid)
    as (stock & Hrun & Hstock).
  exists stock. split; [|exact Hstock].
  unfold create_multi_item_sale, create_multi_item_sale_txn.
  rewrite Hperm, Hcsrf, Hcust, Hinv, Hmethod, Hreceiver. cbn [negb].
  rewrite bool_decide_eq_false_2 by done.
  rewrite Hlines, Hrun.
  cbn [cart_created cart_flashes cart_rows cart_inventory].
  rewrite bool_decide_eq_false_2 by (destruct ls; [done|cbn [length]; lia]).
  cbn [app].
  by rewrite sale_items_of_created.
Qed.


Lemma valid_lines_valid : lines_valid (inventory (shop "pending")) valid_lines.
Proof.
  intros l Hl. unfold valid_lines in Hl.
  apply elem_of_cons in Hl as [->|Hl];
    [|apply elem_of_cons in Hl as [->|Hl]; [|by apply elem_of_nil in Hl]].
  - split; [done|]. eexists. split; [reflexivity|]. by vm_compute.
  - split; [done|]. eexists. split; [reflexivity|]. by vm_compute.
Qed.

Lemma cash_request_accepted :
  request_accepted admin new_year_noon (cash_request (Line <$> valid_lines))
    (shop "pending") (customers (shop "pending")) 1 "INV20250101-0002"
    "cash" "Bob".
Proof.
  repeat split; try reflexivity. by_computation.
Qed.


(** ** Creating and then voiding a sale *)









(** ** Invoice numbering *)

(** *** Texts *)

Lemma append_nil_l (s : string) : "" +:+ s = s.
Proof. reflexivity. Qed.

Lemma append_cons (x : ascii) (a b : string) :
  String x a +:+ b = String x (a +:+ b).
Proof. reflexivity. Qed.

Ltac push_append := rewrite ?append_nil_l, ?append_cons.

Lemma append_assoc (a b c : string) : (a +:+ b) +:+ c = a +:+ (b +:+ c).
Proof. induction a as [|x a IH]; push_append; [done|]. by f_equal. Qed.

Lemma append_inj_l (p a b : string) : p +:+ a = p +:+ b → a = b.
Proof. apply (inj (String.append p)). Qed.

Lemma length_append (a b : string) :
  String.length (a +:+ b) = (String.length a + String.length b)%nat.
Proof. induction a as [|x a IH]; push_append; [done|]. simpl. by f_equal. Qed.

Lemma length_zeros (k : nat) : String.length (zeros k) = k.
Proof. induction k as [|k IH]; [done|]. simpl. by f_equal. Qed.

Lemma prefix_append (p s : string) : String.prefix p (p +:+ s) = true.
Proof.
  induction p as [|x p IH]; push_append; simpl; [by destruct s|].
  destruct (ascii_dec x x); [done|congruence].
Qed.

Lemma prefix_inv (p s : string) :
  String.prefix p s = true → ∃ r, s = p +:+ r.
Proof.
  revert s. induction p as [|x p IH]; intros s H.
  - by exists s.
  - destruct s as [|y s]; simpl in H; [done|].
    destruct (ascii_dec x y) as [->|]; [|done].
    destruct (IH s H) as [r ->]. by exists r.
Qed.

Lemma compare_append (p a b : string) :
  String.compare (p +:+ a) (p +:+ b) = String.compare a b.
Proof.
  induction p as [|x p IH]; push_append; simpl; [done|].
  unfold Ascii.compare. by rewrite N.compare_refl.
Qed.

(** *** Reading digits *)

Lemma digit_of_ascii_Some (c : ascii) (d : N) :
  digit_of_ascii c = Some d → (N_of_ascii c = d + 48 ∧ d ≤ 9)%N.
Proof.
  unfold digit_of_ascii. case_match eqn:H; [|done]. intros [= <-].
  apply andb_true_iff in H as [H1 H2].
  apply N.leb_le in H1, H2. lia.
Qed.

Lemma int_of_digits_app (acc : N) (a b : string) :
  int_of_digits acc (a +:+ b)
  = match int_of_digits acc a with
    | Some v => int_of_digits v b
    | None => None
    end.
Proof.
  revert acc. induction a as [|x a IH]; intros acc; push_append; simpl; [done|].
  destruct (digit_of_ascii x); [apply IH|done].
Qed.

Lemma int_of_digits_zeros (k : nat) (s : string) :
  int_of_digits 0 (zeros k +:+ s) = int_of_digits 0 s.
Proof. induction k as [|k IH]; [done|]. simpl. push_append. exact IH. Qed.

(** A text of digits has no dash. *)
Lemma last_segment_from_digits (seg s : string) (acc v : N) :
  int_of_digits acc s = Some v → last_segment_from seg s = seg.
Proof.
  revert acc. induction s as [|x s IH]; intros acc H; simpl in *; [done|].
  destruct (digit_of_ascii x) as [d|] eqn:Hd; [|done].
  apply digit_of_ascii_Some in Hd as [Hx Hd].
  destruct (Ascii.eqb x "-") eqn:Heq; [|by eapply IH].
  apply Ascii.eqb_eq in Heq. subst x.
  change (N_of_ascii "-") with 45%N in Hx. lia.
Qed.

Lemma last_segment_from_dash (seg p d : string) (v : N) :
  int_of_digits 0 d = Some v →
  last_segment_from seg (p +:+ "-" +:+ d) = d.
Proof.
  intros Hd. revert seg.
  induction p as [|x p IH]; intros seg; push_append; simpl.
  - by eapply last_segment_from_digits.
  - destruct (Ascii.eqb x "-"); apply IH.
Qed.

(** *** Writing digits *)

Lemma pretty_N_go_app (x : N) (s : string) :
  pretty_N_go x s = pretty_N_go x "" +:+ s.
Proof.
  revert s. induction (N.lt_wf_0 x) as [x _ IH]; intros s.
  destruct (decide (x = 0)%N) as [->|Hx]; [done|].
  assert (x `div` 10 < x)%N as Hlt by (apply N.div_lt; lia).
  rewrite !(pretty_N_go_step x) by lia.
  rewrite (IH _ Hlt (String _ s)), (IH _ Hlt (String _ "")).
  by rewrite append_assoc.
Qed.

Lemma digit_of_pretty_N_char (d : N) :
  (d < 10)%N → digit_of_ascii (pretty_N_char d) = Some d.
Proof.
  intros Hd.
  assert (d = 0 ∨ d = 1 ∨ d = 2 ∨ d = 3 ∨ d = 4 ∨ d = 5 ∨ d = 6 ∨ d = 7
          ∨ d = 8 ∨ d = 9)%N as H by lia.
  repeat (destruct H as [->|H]; [reflexivity|]). by subst.
Qed.

Lemma int_of_pretty_N_go (x : N) : int_of_digits 0 (pretty_N_go x "") = Some x.
Proof.
  induction (N.lt_wf_0 x) as [x _ IH].
  destruct (decide (x = 0)%N) as [->|Hx]; [done|].
  rewrite pretty_N_go_step by lia. rewrite pretty_N_go_app.
  rewrite int_of_digits_app, IH by (apply N.div_lt; lia).
  simpl. rewrite digit_of_pretty_N_char by (apply N.mod_lt; lia).
  f_equal. pose proof (N.div_mod x 10). lia.
Qed.

Lemma int_of_pretty (n : N) : int_of_digits 0 (pretty n) = Some n.
Proof.
  unfold pretty, pretty_N. case_decide as Hn; [by subst|].
  apply int_of_pretty_N_go.
Qed.

Lemma int_of_digits_format (w : nat) (n : N) :
  int_of_digits 0 (format_0d w n) = Some n.
Proof. unfold format_0d. rewrite int_of_digits_zeros. apply int_of_pretty. Qed.

(** Reading what was written gives the number back. *)
Lemma int_of_string_format (w : nat) (n : N) :
  int_of_string (format_0d w n) = Some n.
Proof.
  pose proof (int_of_digits_format w n) as H.
  unfold int_of_string. destruct (format_0d w n) eqn:E; [|done].
  assert (pretty n = "") as Hp.
  { unfold format_0d in E. destruct (pretty n); [done|].
    destruct (zeros _); discriminate E. }
  pose proof (int_of_pretty n) as H'. rewrite Hp in H'. simpl in *.
  by simplify_eq.
Qed.

Lemma format_0d_inj (w : nat) (a b : N) : format_0d w a = format_0d w b → a = b.
Proof.
  intros H. pose proof (int_of_string_format w a) as Ha.
  rewrite H, int_of_string_format in Ha. by simplify_eq.
Qed.

Lemma length_pretty_N_go (k : nat) (x : N) :
  (x < 10 ^ N.of_nat k)%N → (String.length (pretty_N_go x "") ≤ k)%nat.
Proof.
  revert x. induction k as [|k IH]; intros x Hx.
  - assert (x = 0%N) as -> by (simpl in Hx; lia). done.
  - destruct (decide (x = 0)%N) as [->|Hx0]; [simpl; lia|].
    rewrite pretty_N_go_step by lia. rewrite pretty_N_go_app.
    rewrite length_append. simpl.
    assert (x `div` 10 < 10 ^ N.of_nat k)%N as Hdiv.
    { apply N.Div0.div_lt_upper_bound.
      rewrite Nat2N.inj_succ, N.pow_succ_r' in Hx. lia. }
    specialize (IH _ Hdiv). lia.
Qed.

(** Up to [10 ^ w - 1] the padded text has exactly [w] characters. *)
Lemma length_format_0d (w : nat) (n : N) :
  (0 < w)%nat → (n < 10 ^ N.of_nat w)%N → String.length (format_0d w n) = w.
Proof.
  intros Hw Hn. unfold format_0d. rewrite length_append, length_zeros.
  assert (String.length (pretty n) ≤ w)%nat; [|lia].
  unfold pretty, pretty_N. case_decide; [simpl; lia|].
  by apply length_pretty_N_go.
Qed.

(** *** The order of invoice numbers *)

(** Of two texts of digits of one length, read from a smaller and a greater
    start, the first is the smaller number. *)
Lemma int_of_digits_lt (a b : string) (acc acc' va vb : N) :
  String.length a = String.length b → (acc < acc')%N →
  int_of_digits acc a = Some va → int_of_digits acc' b = Some vb →
  (va < vb)%N.
Proof.
  revert b acc acc'. induction a as [|x a IH]; intros [|y b] acc acc' Hlen Hlt;
    simpl in *; try done.
  - intros [= <-] [= <-]. done.
  - destruct (digit_of_ascii x) as [dx|] eqn:Hx; [|done].
    destruct (digit_of_ascii y) as [dy|] eqn:Hy; [|done].
    apply digit_of_ascii_Some in Hx as [_ Hx], Hy as [_ Hy].
    apply IH; [congruence|lia].
Qed.

(** Texts of digits of one length are ordered as the numbers they write. *)
Lemma compare_digits (a b : string) (acc va vb : N) :
  String.length a = String.length b →
  int_of_digits acc a = Some va → int_of_digits acc b = Some vb →
  String.compare a b = (va ?= vb)%N.
Proof.
  revert b acc. induction a as [|x a IH]; intros [|y b] acc Hlen;
    simpl in *; try done.
  - intros [= <-] [= <-]. by rewrite N.compare_refl.
  - destruct (digit_of_ascii x) as [dx|] eqn:Hx; [|done].
    destruct (digit_of_ascii y) as [dy|] eqn:Hy; [|done].
    intros Ha Hb.
    pose proof (digit_of_ascii_Some _ _ Hx) as [Hx' _].
    pose proof (digit_of_ascii_Some _ _ Hy) as [Hy' _].
    unfold Ascii.compare. rewrite Hx', Hy'.
    destruct (dx ?= dy)%N eqn:Hcmp.
    + apply N.compare_eq_iff in Hcmp as ->.
      rewrite N.compare_refl. eapply IH; [congruence|done..].
    + assert (dx < dy)%N as Hlt by (by apply N.compare_lt_iff).
      rewrite (proj2 (N.compare_lt_iff (dx + 48) (dy + 48))) by lia.
      symmetry. apply N.compare_lt_iff.
      eapply (int_of_digits_lt a b); [congruence| |done..]. lia.
    + assert (dy < dx)%N as Hlt by (by apply N.compare_gt_iff).
      rewrite (proj2 (N.compare_gt_iff (dx + 48) (dy + 48))) by lia.
      symmetry. apply N.compare_gt_iff.
      eapply (int_of_digits_lt b a); [congruence| |done..]. lia.
Qed.

Lemma compare_day_invoice (today : datetime) (a b : N) :
  (a ≤ 9999)%N → (b ≤ 9999)%N →
  String.compare (day_invoice today a) (day_invoice today b) = (a ?= b)%N.
Proof.
  intros Ha Hb. unfold day_invoice. rewrite !compare_append.
  apply (compare_digits _ _ 0).
  - rewrite !length_format_0d; [done|lia|simpl; lia|lia|simpl; lia].
  - apply int_of_digits_format.
  - apply int_of_digits_format.
Qed.

Lemma str_max_day_invoice (today : datetime) (a b : N) :
  (a ≤ 9999)%N → (b ≤ 9999)%N →
  str_max (day_invoice today a) (day_invoice today b)
  = day_invoice today (N.max a b).
Proof.
  intros Ha Hb. unfold str_max, String.leb, N.max.
  rewrite compare_day_invoice by done. by destruct (a ?= b)%N.
Qed.

Lemma day_invoice_inj (today : datetime) (a b : N) :
  day_invoice today a = day_invoice today b → a = b.
Proof.
  unfold day_invoice. intros H.
  do 2 apply append_inj_l in H. by apply format_0d_inj in H.
Qed.

Lemma day_invoice_prefix (today : datetime) (n : N) :
  String.prefix (invoice_prefix today) (day_invoice today n) = true.
Proof. apply prefix_append. Qed.

Lemma last_segment_day_invoice (today : datetime) (n : N) :
  last_segment (day_invoice today n) = format_0d 4 n.
Proof.
  unfold last_segment, day_invoice.
  eapply last_segment_from_dash, int_of_digits_format.
Qed.

(** *** The greatest invoice number of the day *)

Lemma max_sequence_bound (ns : list N) (k : N) :
  Forall (λ n, n ≤ k)%N ns → (max_sequence ns ≤ k)%N.
Proof. induction 1; simpl; lia. Qed.

Lemma max_sequence_ge (ns : list N) (n : N) :
  n ∈ ns → (n ≤ max_sequence ns)%N.
Proof.
  induction ns as [|x ns IH]; intros Hin; [by apply elem_of_nil in Hin|].
  apply elem_of_cons in Hin as [->|Hin]; simpl; [lia|].
  specialize (IH Hin). lia.
Qed.

Lemma max_sequence_elem (ns : list N) : ns ≠ [] → max_sequence ns ∈ ns.
Proof.
  induction ns as [|x ns IH]; intros Hne; [done|]. simpl.
  destruct ns as [|y ns].
  - simpl. rewrite N.max_0_r. by left.
  - destruct (N.max_spec x (max_sequence (y :: ns))) as [[_ ->]|[_ ->]].
    + right. by apply IH.
    + by left.
Qed.

Lemma foldl_str_max (today : datetime) (n0 : N) (ns : list N) :
  (n0 ≤ 9999)%N → Forall (λ n, n ≤ 9999)%N ns →
  foldl str_max (day_invoice today n0) (day_invoice today <$> ns)
  = day_invoice today (max_sequence (n0 :: ns)).
Proof.
  intros Hn0 Hns. revert n0 Hn0.
  induction Hns as [|n ns Hn Hns IH]; intros n0 Hn0; simpl.
  - by rewrite N.max_0_r.
  - rewrite str_max_day_invoice by done. rewrite IH by lia.
    simpl. f_equal. lia.
Qed.

(** The invoice numbers of the day, as sequence numbers. *)
Lemma day_numbers_sequences (today : datetime) (l : list string) :
  (∀ s, s ∈ l → ∃ n, (n ≤ 9999)%N ∧ s = day_invoice today n) →
  ∃ ns, Forall (λ n, n ≤ 9999)%N ns ∧ l = day_invoice today <$> ns.
Proof.
  induction l as [|s l IH]; intros H.
  - by exists [].
  - destruct (H s) as (n & Hn & ->); [by left|].
    destruct IH as (ns & Hns & ->); [intros; apply H; by right|].
    exists (n :: ns). split; [by constructor|done].
Qed.

(** What [generate_invoice_number] gives when the numbers of the day in the
    table carry the sequences [ns]. *)
Lemma generated_invoice_number_of_sequences (today : datetime)
    (existing : list string) (ns : list N) :
  Forall (λ n, n ≤ 9999)%N ns →
  filter (λ s, String.prefix (invoice_prefix today) s = true) existing
  = day_invoice today <$> ns →
  generated_invoice_number today existing
  = Some (day_invoice today (max_sequence ns + 1)).
Proof.
  intros Hns Hfilter. unfold generated_invoice_number, last_invoice.
  rewrite Hfilter. destruct Hns as [|n ns Hn Hns]; [done|].
  rewrite fmap_cons, foldl_str_max by done.
  by rewrite last_segment_day_invoice, int_of_string_format.
Qed.

Lemma generated_invoice_number_examples :
  generated_invoice_number new_year_noon [] = Some "INV20250101-0001"
  ∧ generated_invoice_number new_year_noon ["INV20250101-0001"]
    = Some "INV20250101-0002"
  ∧ generated_invoice_number next_day_noon
      ["INV20250101-0001"; "INV20250101-0002"]
    = Some "INV20250102-0001".
Proof. repeat split. Qed.

(** C5, counterexample: after invoice 9999 of a day the next number carries
    five digits after the dash; it is not of the form with a sequence of four
    characters. *)
Lemma generated_invoice_number_five_digits :
  generated_invoice_number new_year_noon ["INV20250101-9999"]
  = Some "INV20250101-10000"
  ∧ ¬ four_digit_invoice new_year_noon "INV20250101-10000".
Proof.
  split; [reflexivity|]. intros (d & Hlen & Hd).
  change (invoice_prefix new_year_noon +:+ "-" +:+ d)
    with ("INV20250101-" +:+ d) in Hd.
  change "INV20250101-10000" with ("INV20250101-" +:+ "10000") in Hd.
  apply append_inj_l in Hd. by subst d.
Qed.

(** C5, as amended: when the invoice numbers of the day in the table carry
    sequences of four digits, [generate_invoice_number] gives the prefix of
    the day, a dash and the next sequence padded with zeros to at least four
    digits, exactly four up to 9999: the sequence is 1 when the table has no
    number of the day (so on a new day), and otherwise the highest sequence
    of the day plus one; a second call, once the first number is in the
    table, gives the sequence after it. *)
Theorem generated_invoice_number_next (today : datetime)
    (existing : list string) :
  day_numbers_well_formed today existing →
  ∃ n,
    generated_invoice_number today existing = Some (day_invoice today n)
    ∧ ((∀ s, s ∈ existing → String.prefix (invoice_prefix today) s = false) →
       n = 1%N)
    ∧ ((∃ s, s ∈ existing ∧ String.prefix (invoice_prefix today) s = true) →
       ∃ m, n = (m + 1)%N ∧ (m ≤ 9999)%N
            ∧ day_invoice today m ∈ existing
            ∧ ∀ k, (k ≤ 9999)%N → day_invoice today k ∈ existing → (k ≤ m)%N)
    ∧ ((n ≤ 9999)%N → String.length (format_0d 4 n) = 4%nat)
    ∧ int_of_string (format_0d 4 n) = Some n
    ∧ ((n ≤ 9999)%N →
       generated_invoice_number today (day_invoice today n :: existing)
       = Some (day_invoice today (n + 1))).
Proof.
  intros Hwf.
  destruct (day_numbers_sequences today
              (filter (λ s, String.prefix (invoice_prefix today) s = true)
                 existing)) as (ns & Hns & Hfilter).
  { intros s [Hp Hs]%list_elem_of_filter. by apply Hwf. }
  exists (max_sequence ns + 1)%N.
  split; [by apply generated_invoice_number_of_sequences|].
  split; [|split; [|split; [|split]]].
  - intros Hnone. destruct ns as [|n ns]; [done|]. exfalso.
    assert (day_invoice today n ∈ existing) as Hin.
    { eapply (proj1 (list_elem_of_filter _ _ _)). rewrite Hfilter. by left. }
    specialize (Hnone _ Hin). by rewrite day_invoice_prefix in Hnone.
  - intros (s & Hs & Hp).
    assert (ns ≠ []) as Hne.
    { intros ->. simpl in Hfilter.
      assert (s ∈ filter (λ s, String.prefix (invoice_prefix today) s = true)
                existing) as Hin by (by apply list_elem_of_filter).
      rewrite Hfilter in Hin. by apply elem_of_nil in Hin. }
    exists (max_sequence ns). split; [done|].
    split; [by apply max_sequence_bound|]. split.
    + eapply (proj1 (list_elem_of_filter _ _ _)). rewrite Hfilter.
      apply list_elem_of_fmap. exists (max_sequence ns).
      split; [done|by apply max_sequence_elem].
    + intros k Hk Hin. apply max_sequence_ge.
      assert (day_invoice today k
                ∈ filter (λ s, String.prefix (invoice_prefix today) s = true)
                    existing) as Hin'.
      { apply list_elem_of_filter. split; [apply day_invoice_prefix|done]. }
      rewrite Hfilter in Hin'.
      apply list_elem_of_fmap in Hin' as (k' & Heq & Hk').
      by apply day_invoice_inj in Heq as ->.
  - intros Hn. apply length_format_0d; [lia|simpl; lia].
  - apply int_of_string_format.
  - intros Hn.
    rewrite (generated_invoice_number_of_sequences today _
               ((max_sequence ns + 1)%N :: ns)).
    + do 2 f_equal. simpl. lia.
    + by constructor.
    + rewrite filter_cons_True by apply day_invoice_prefix.
      by rewrite Hfilter.
Qed.

Lemma generated_invoice_number_next_witness :
  ∃ n,
    generated_invoice_number new_year_noon
      ["INV20250101-0001"; "INV20241231-0007"]
    = Some (day_invoice new_year_noon n)
    ∧ int_of_string (format_0d 4 n) = Some n.
Proof.
  destruct (generated_invoice_number_next new_year_noon
              ["INV20250101-0001"; "INV20241231-0007"])
    as (n & Hgen & _ & _ & _ & Hint & _).
  - intros s Hs Hp.
    apply elem_of_cons in Hs as [->|Hs];
      [|apply elem_of_cons in Hs as [->|Hs]; [|by apply elem_of_nil in Hs]].
    + exists 1%N. split; [lia|reflexivity].
    + discriminate Hp.
  - exists n. by split.
Defined.

(** The invoice numbers of another day do not carry the prefix of the day. *)
Lemma other_day_no_prefix (today other : datetime) (n : N) :
  String.length (invoice_prefix other) = String.length (invoice_prefix today) →
  invoice_prefix other ≠ invoice_prefix today →
  String.prefix (invoice_prefix today) (day_invoice other n) = false.
Proof.
  intros Hlen Hne.
  destruct (String.prefix _ _) eqn:Hp; [|done]. exfalso. apply Hne.
  apply prefix_inv in Hp as [r Hr]. unfold day_invoice in Hr.
  revert Hlen Hr. generalize ("-" +:+ format_0d 4 n).
  generalize (invoice_prefix today). generalize (invoice_prefix other).
  intros p. induction p as [|x p IH]; intros [|y p'] t Hlen Hr;
    simpl in Hlen; try done.
  rewrite !append_cons in Hr. injection Hr as -> Hr. f_equal.
  eapply IH; [congruence|done].
Qed.

(** ** The single item sale *)

(** [add_sale] refuses a quantity above the stock and changes nothing. *)
Lemma add_sale_insufficient_stock
    (float_subtotal : Decimal → Z → Decimal)
    (float_final_price : Decimal → Z → option Decimal → Decimal)
    (u : User) (now : datetime) (f : SaleForm) (db : DB)
    (cs : gmap Z Customer) (cid i q : Z) (it : InventoryItem) :
  has_permission u "create_sales" = true →
  sale_form_validates f db = true →
  add_sale_customer f db = CustomerOk cs cid →
  sf_inventory_id f = Some i →
  sf_quantity_to_sell f = Some q →
  inventory db !! i = Some it →
  quantity it < q →
  add_sale float_subtotal float_final_price u now f db
  = (Redirect "sales"
       [("Only " +:+ pretty (quantity it) +:+ " units available", "danger")],
     db).
Proof.
  intros Hperm Hvalid Hcust Hi Hq Hit Hlt. unfold add_sale.
  rewrite Hperm, Hvalid, Hcust, Hi, Hq, Hit. cbn [negb].
  by rewrite bool_decide_eq_true_2.
Qed.

(** What a form that validates says of the item and the quantity. *)
Lemma sale_form_validates_item (f : SaleForm) (db : DB) :
  sale_form_validates f db = true →
  ∃ i q it,
    sf_inventory_id f = Some i ∧ i ≠ 0
    ∧ sf_quantity_to_sell f = Some q ∧ 1 ≤ q
    ∧ inventory db !! i = Some it ∧ status it = "available".
Proof.
  unfold sale_form_validates. rewrite !andb_true_iff.
  intros ((((((((_ & _) & Hitem) & Hqty) & _) & _) & _) & _) & _).
  destruct (sf_inventory_id f) as [i|]; [|done].
  destruct (sf_quantity_to_sell f) as [q|]; [|done].
  apply andb_true_iff in Hitem as [Hi Hit].
  destruct (inventory db !! i) as [it|] eqn:Hlook; [|done].
  exists i, q, it. apply negb_true_iff, bool_decide_eq_false in Hi.
  apply bool_decide_eq_true in Hqty. apply String.eqb_eq in Hit. done.
Qed.

(** X29: a single item sale that was created and is then voided leaves the
    inventory as it was before the sale: [add_sale] only sells available
    items. *)
Lemma add_sale_then_void_restores
    (float_subtotal : Decimal → Z → Decimal)
    (float_final_price : Decimal → Z → option Decimal → Decimal)
    (u v : User) (now later : datetime) (f : SaleForm) (db db1 : DB)
    (reason : string) :
  sale_items_integrity db →
  add_sale float_subtotal float_final_price u now f db
  = (Redirect "sales" [("Sale created successfully", "success")], db1) →
  strip reason ≠ "" →
  ∃ inv db2,
    void_sale_txn v later (next_id (sales db)) reason db1
    = (sale_voided inv, db2)
    ∧ inventory db2 = inventory db.
Proof.
  intros Hint Hadd Hreason. unfold add_sale in Hadd.
  destruct (has_permission u "create_sales"); [|done]. cbn [negb] in Hadd.
  destruct (sale_form_validates f db) eqn:Hvalid; [|done]. cbn [negb] in Hadd.
  destruct (sale_form_validates_item f db Hvalid)
    as (i & q & it & Hi & Hi0 & Hq & Hq1 & Hit & Hst).
  rewrite Hi, Hq, Hit in Hadd.
  destruct (add_sale_customer f db) as [cs cid| |]; [| done |];
    (case_bool_decide as Hstock; [done|]); [|done].
  destruct (generated_invoice_number now (invoice_numbers db)) as [inv|];
    [|done].
  case_bool_decide; [done|]. injection Hadd as <-.
  exists inv. eexists.
  unfold void_sale_txn. cbn [sales inventory sale_items].
  rewrite lookup_insert_eq.
  cbn [new_single_item_sale payment_status invoice_number void_legacy_item
       inventory_id quantity_sold].
  rewrite bool_decide_eq_false_2 by discriminate.
  rewrite bool_decide_eq_false_2 by done.
  rewrite bool_decide_eq_false_2 by done.
  rewrite lookup_insert_eq. split; [reflexivity|]. cbn [inventory].
  rewrite sale_items_of_fresh by done. cbn [foldl].
  rewrite insert_insert_eq. apply insert_id. rewrite Hit. f_equal.
  destruct it; simpl in *. subst. unfold give_back, set_stock; simpl.
  f_equal. lia.
Qed.

(** A form that validates carries a discount between 0 and 100, if any. *)
Lemma sale_form_validates_discount (f : SaleForm) (db : DB) (d : Decimal) :
  sale_form_validates f db = true →
  sf_discount_percentage f = Some d →
  (dec_of_int 0 ≤ d ≤ dec_of_int 100)%Qc.
Proof.
  unfold sale_form_validates. rewrite !andb_true_iff.
  intros (((((_ & Hd) & _) & _) & _) & _) Heq. rewrite Heq in Hd.
  apply andb_true_iff in Hd as [H0 H100].
  by apply bool_decide_eq_true in H0, H100.
Qed.

(** X28: [add_sale] does not take a discount outside [0, 100]: the form does not
    validate, the page is shown again and nothing is changed. *)
Lemma add_sale_invalid_discount
    (float_subtotal : Decimal → Z → Decimal)
    (float_final_price : Decimal → Z → option Decimal → Decimal)
    (u : User) (now : datetime) (f : SaleForm) (db : DB) (d : Decimal) :
  has_permission u "create_sales" = true →
  sf_discount_percentage f = Some d →
  (d < dec_of_int 0 ∨ dec_of_int 100 < d)%Qc →
  add_sale float_subtotal float_final_price u now f db
  = (Render "sales.html", db).
Proof.
  intros Hperm Hd Hrange. unfold add_sale. rewrite Hperm. cbn [negb].
  destruct (sale_form_validates f db) eqn:Hvalid; [|done]. exfalso.
  destruct (sale_form_validates_discount f db d Hvalid Hd) as [H0 H100].
  destruct Hrange as [Hlt|Hlt]; by apply Qclt_not_le in Hlt.
Qed.

(** * Further properties *)

(** ** Pricing *)

Lemma dec_of_int_0 : dec_of_int 0 = 0%Qc.
Proof. apply Z2Qc_inj_0. Qed.

Lemma dec_hundred_pos : (0 < dec_of_int 100)%Qc.
Proof.
  rewrite <- Z2Qc_inj_0. unfold dec_of_int.
  apply (proj1 (Z2Qc_inj_lt 0 100)). lia.
Qed.

(** X1: with a quantity and a unit price that are not negative and a discount
    between 0 and 100, the discount amount and the final line total lie
    between 0 and the line total. *)
Theorem calculate_line_totals_bounds (si : SaleItem) :
  0 ≤ si_quantity_sold si →
  (dec_of_int 0 ≤ unit_price si)%Qc →
  (dec_of_int 0 ≤ si_discount_percentage si ≤ dec_of_int 100)%Qc →
  let r := calculate_line_totals si in
  (dec_of_int 0 ≤ discount_amount r ≤ line_total r)%Qc
  ∧ (dec_of_int 0 ≤ final_line_total r ≤ line_total r)%Qc.
Proof.
  rewrite !dec_of_int_0. intros Hq Hup [Hp0 Hp100] r. subst r.
  cbn [calculate_line_totals discount_amount line_total final_line_total].
  set (L := (dec_of_int (si_quantity_sold si) * unit_price si)%Qc).
  set (p := si_discount_percentage si) in *.
  assert (0 ≤ L)%Qc as HL.
  { apply Qcmult_nonneg_nonneg; [|done].
    rewrite <- Z2Qc_inj_0. unfold dec_of_int.
    exact (proj1 (Z2Qc_inj_le _ _) Hq). }
  pose proof dec_hundred_pos as H100.
  assert (0 ≤ / dec_of_int 100)%Qc as Hinv.
  { apply Qclt_le_weak, Qcinv_pos. done. }
  assert (0 ≤ L * p / dec_of_int 100)%Qc as HD0.
  { apply Qcmult_nonneg_nonneg; [by apply Qcmult_nonneg_nonneg|done]. }
  assert (L * p / dec_of_int 100 ≤ L)%Qc as HDL.
  { replace L with (L * dec_of_int 100 / dec_of_int 100)%Qc at 2.
    - apply Qcmult_le_mono_nonneg_r; [done|].
      by apply Qcmult_le_mono_nonneg_l.
    - field. intros E. rewrite E in H100. by apply Qclt_not_eq in H100. }
  repeat split; try done.
  - apply Qcle_minus_iff in HDL. exact HDL.
  - apply Qcle_minus_iff.
    replace (L + - (L - L * p / dec_of_int 100))%Qc
      with (L * p / dec_of_int 100)%Qc by ring.
    done.
Qed.

Lemma calculate_line_totals_bounds_witness :
  let r := calculate_line_totals line_3_at_9_99_less_25 in
  (dec_of_int 0 ≤ discount_amount r ≤ line_total r)%Qc
  ∧ (dec_of_int 0 ≤ final_line_total r ≤ line_total r)%Qc.
Proof.
  apply (calculate_line_totals_bounds line_3_at_9_99_less_25).
  - simpl. lia.
  - by_computation.
  - split; by_computation.
Defined.

(** *** Sums *)








(** ** The loop over the lines, for every request *)

Lemma parsed_lines_cons_line (l : LineRequest) (lines : list SaleLine) :
  parsed_lines (Line l :: lines) = l :: parsed_lines lines.
Proof. reflexivity. Qed.

(** An entry whose conversion raises ends the loop with an exception. *)
Lemma process_lines_unparsable (sid : Z) (lines : list SaleLine) (c : Cart) :
  LineUnparsable ∈ lines → ∃ fl, process_lines sid lines c = Raised fl.
Proof.
  revert c. induction lines as [|x lines IH]; intros c Hin.
  - by apply elem_of_nil in Hin.
  - destruct x as [| |l]; cbn [process_lines].
    + apply IH. by apply elem_of_cons in Hin as [?|?].
    + eauto.
    + apply IH. by apply elem_of_cons in Hin as [?|?].
Qed.

(** Without such an entry the loop ends, with one row for each line that
    parses, in order. *)
Lemma process_lines_done (sid : Z) (lines : list SaleLine) (c : Cart) :
  LineUnparsable ∉ lines →
  ∃ c', process_lines sid lines c = Done c'
        ∧ cart_rows c'
          = cart_rows c ++ (new_sale_item sid <$> parsed_lines lines)
        ∧ cart_created c'
          = (cart_created c + length (parsed_lines lines))%nat.
Proof.
  revert c. induction lines as [|x lines IH]; intros c Hni.
  - exists c. cbn. by rewrite app_nil_r, Nat.add_0_r.
  - apply not_elem_of_cons in Hni as [Hx Hni].
    destruct x as [| |l]; cbn [process_lines]; [by apply IH|done|].
    destruct (IH (add_line sid l c) Hni) as (c' & Hrun & Hrows & Hcount).
    exists c'. split; [done|].
    rewrite Hrows, Hcount, parsed_lines_cons_line, fmap_cons.
    unfold add_line. repeat case_match; cbn [cart_rows cart_created length];
      (split; [by rewrite <- app_assoc|lia]).
Qed.

(** The loop depends on the lines that parse and on whether some entry
    raises, on nothing else. *)
Lemma process_lines_parsed (sid : Z) (lines : list SaleLine) (c : Cart) :
  LineUnparsable ∉ lines →
  process_lines sid lines c = process_lines sid (Line <$> parsed_lines lines) c.
Proof.
  revert c. induction lines as [|x lines IH]; intros c Hni; [done|].
  apply not_elem_of_cons in Hni as [Hx Hni].
  destruct x as [| |l]; cbn [process_lines]; [by apply IH|done|].
  rewrite parsed_lines_cons_line, fmap_cons. cbn [process_lines]. by apply IH.
Qed.

(** One line of the loop keeps the items, up to their stock, and keeps the
    stock from falling below zero. *)
Lemma add_line_same_inventory (sid : Z) (l : LineRequest) (c : Cart) :
  same_inventory_but_stock (cart_inventory c)
    (cart_inventory (add_line sid l c)).
Proof.
  unfold add_line, take_stock.
  destruct (cart_inventory c !! lr_inventory_id l) as [it|] eqn:Hit;
    [|apply same_inventory_refl].
  case_bool_decide; cbn [cart_inventory]; [|apply same_inventory_refl].
  by apply same_inventory_insert.
Qed.

Lemma add_line_stock_nonneg (sid : Z) (l : LineRequest) (c : Cart) :
  stock_nonneg (cart_inventory c) →
  stock_nonneg (cart_inventory (add_line sid l c)).
Proof.
  intros Hnn. unfold add_line, take_stock.
  destruct (cart_inventory c !! lr_inventory_id l) as [it|] eqn:Hit; [|done].
  case_bool_decide; cbn [cart_inventory]; [|done].
  intros i it' Hi. destruct (decide (lr_inventory_id l = i)) as [<-|Hne].
  - rewrite lookup_insert_eq in Hi. injection Hi as <-. simpl. lia.
  - rewrite lookup_insert_ne in Hi by done. by eapply Hnn.
Qed.

Lemma process_lines_same_inventory (sid : Z) (lines : list SaleLine)
    (c c' : Cart) :
  process_lines sid lines c = Done c' →
  same_inventory_but_stock (cart_inventory c) (cart_inventory c').
Proof.
  revert c. induction lines as [|x lines IH]; intros c Hrun.
  - injection Hrun as <-. apply same_inventory_refl.
  - destruct x as [| |l]; cbn [process_lines] in Hrun; [by apply IH|done|].
    eapply same_inventory_trans; [apply add_line_same_inventory|by apply IH].
Qed.

Lemma process_lines_stock_nonneg (sid : Z) (lines : list SaleLine)
    (c c' : Cart) :
  process_lines sid lines c = Done c' →
  stock_nonneg (cart_inventory c) → stock_nonneg (cart_inventory c').
Proof.
  revert c. induction lines as [|x lines IH]; intros c Hrun Hnn.
  - by injection Hrun as <-.
  - destruct x as [| |l]; cbn [process_lines] in Hrun; [by eapply IH|done|].
    eapply IH; [done|]. by apply add_line_stock_nonneg.
Qed.

(** *** What a request leaves behind *)

(** Either the database is as before, or a sale was stored: then the customer
    was found or made, a free invoice number was generated, the loop over the
    lines ended with at least one row, and the database is the one the loop
    built. *)
Lemma create_multi_item_sale_inv (u : User) (now : datetime)
    (req : MultiItemRequest) (db : DB) :
  (create_multi_item_sale u now req db).2 = db
  ∨ ∃ cs cid inv method receiver c,
      request_accepted u now req db cs cid inv method receiver
      ∧ process_lines (next_id (sales db)) (mi_lines req)
          (mk_Cart (inventory db) [] 0 []) = Done c
      ∧ cart_created c ≠ 0%nat
      ∧ create_multi_item_sale u now req db
        = (Redirect "sales"
             (cart_flashes c ++
                [("Multi-item sale " +:+ inv +:+ " created successfully!",
                  "success")]),
           {| inventory := cart_inventory c;
              customers := cs;
              sales :=
                <[next_id (sales db) :=
                    calculate_totals
                      (sale_items_of (next_id (sales db))
                         (sale_items db ++ cart_rows c))
                      (new_multi_item_sale u now cid inv method receiver req)]>
                  (sales db);
              sale_items := sale_items db ++ cart_rows c |}).
Proof.
  unfold create_multi_item_sale, create_multi_item_sale_txn, request_accepted.
  destruct (has_permission u "create_sales"); [|by left]. cbn [negb].
  destruct (mi_csrf_valid req); [|by left]. cbn [negb].
  destruct (multi_item_customer req db) as [cs cid| |]; [|by left..].
  destruct (generated_invoice_number now (invoice_numbers db)) as [inv|];
    [|by left].
  destruct (mi_payment_method req) as [method|]; [|by left].
  destruct (mi_payment_receiver req) as [receiver|]; [|by left].
  case_bool_decide as Hfree; [by left|].
  destruct (process_lines _ _ _) as [c|fl] eqn:Hrun; [|by left].
  case_bool_decide as Hcreated; [by left|].
  right. exists cs, cid, inv, method, receiver, c. done.
Qed.

(** X7: creation is all or nothing: a request either leaves the database exactly
    as it was (so neither a sale, a line, a stock movement nor a new customer
    stays behind), or it answers with the success message and has stored one
    new pending sale under the next key. *)
Theorem create_multi_item_sale_all_or_nothing (u : User) (now : datetime)
    (req : MultiItemRequest) (db : DB) :
  (create_multi_item_sale u now req db).2 = db
  ∨ ∃ fl inv sale,
      (create_multi_item_sale u now req db).1
      = Redirect "sales"
          (fl ++ [("Multi-item sale " +:+ inv +:+ " created successfully!",
                   "success")])
      ∧ sales (create_multi_item_sale u now req db).2
        = <[next_id (sales db) := sale]> (sales db)
      ∧ sales db !! next_id (sales db) = None
      ∧ invoice_number sale = inv
      ∧ payment_status sale = "pending"
      ∧ inv ∉ invoice_numbers db.
Proof.
  destruct (create_multi_item_sale_inv u now req db)
    as [Hsame|(cs & cid & inv & method & receiver & c & Hacc & Hrun & Hc & ->)];
    [by left|right].
  destruct Hacc as (_ & _ & _ & _ & Hfree & _).
  eexists _, inv, _. cbn [fst snd sales].
  split; [reflexivity|]. split; [reflexivity|].
  split; [apply next_id_fresh|].
  split; [|split; [|done]].
  - unfold calculate_totals. by case_match.
  - unfold calculate_totals. by case_match.
Qed.

(** X8: a request with an entry whose conversion raises changes nothing, however
    many good lines come before it. *)
Theorem create_multi_item_sale_unparsable (u : User) (now : datetime)
    (req : MultiItemRequest) (db : DB) :
  LineUnparsable ∈ mi_lines req →
  (create_multi_item_sale u now req db).2 = db.
Proof.
  intros Hin.
  destruct (create_multi_item_sale_inv u now req db)
    as [Hsame|(cs & cid & inv & method & receiver & c & _ & Hrun & _)];
    [done|].
  destruct (process_lines_unparsable (next_id (sales db)) (mi_lines req)
              (mk_Cart (inventory db) [] 0 []) Hin) as [fl Hfl].
  congruence.
Qed.

Lemma create_multi_item_sale_unparsable_witness :
  (create_multi_item_sale admin new_year_noon
     (cash_request [Line (mk_LineRequest 1 2 (dec 9.99) (dec 0));
                    LineUnparsable])
     (shop "pending")).2
  = shop "pending".
Proof.
  apply create_multi_item_sale_unparsable. cbn [mi_lines cash_request].
  apply elem_of_cons. right. apply elem_of_cons. by left.
Defined.

(** X9: a request none of whose entries is a line (all are passed over) is
    refused as empty and changes nothing. *)
Theorem create_multi_item_sale_no_lines (u : User) (now : datetime)
    (req : MultiItemRequest) (db : DB) (cs : gmap Z Customer) (cid : Z)
    (inv method receiver : string) :
  request_accepted u now req db cs cid inv method receiver →
  Forall (λ x, x = LineSkipped) (mi_lines req) →
  create_multi_item_sale u now req db
  = (Redirect "sales"
       [("Error: No valid sale items were processed. Please ensure items are selected properly.",
         "danger")], db).
Proof.
  intros (Hperm & Hcsrf & Hcust & Hinv & Hfree & Hmethod & Hreceiver) Hskip.
  unfold create_multi_item_sale, create_multi_item_sale_txn.
  rewrite Hperm, Hcsrf, Hcust, Hinv, Hmethod, Hreceiver. cbn [negb].
  rewrite bool_decide_eq_false_2 by done.
  assert (∀ c, process_lines (next_id (sales db)) (mi_lines req) c = Done c)
    as Hrun.
  { induction Hskip as [|x lines -> _ IH]; intros c; [done|]. apply IH. }
  rewrite Hrun. cbn [cart_created cart_flashes].
  by rewrite bool_decide_eq_true_2.
Qed.

Lemma create_multi_item_sale_no_lines_witness :
  create_multi_item_sale admin new_year_noon
    (cash_request [LineSkipped; LineSkipped]) (shop "pending")
  = (Redirect "sales"
       [("Error: No valid sale items were processed. Please ensure items are selected properly.",
         "danger")], shop "pending").
Proof.
  apply (create_multi_item_sale_no_lines _ _ _ _ (customers (shop "pending"))
           1 "INV20250101-0002" "cash" "Bob").
  - repeat split; try reflexivity. by_computation.
  - repeat constructor.
Defined.

(** The entries the loop passes over have no effect: a request and the
    request without them get the same response and leave the same
    database. *)
Theorem create_multi_item_sale_skipped (u : User) (now : datetime)
    (req : MultiItemRequest) (db : DB) :
  create_multi_item_sale u now req db
  = create_multi_item_sale u now
      (with_lines req (filter (λ x, x ≠ LineSkipped) (mi_lines req))) db.
Proof.
  assert (∀ sid lines c,
            process_lines sid lines c
            = process_lines sid (filter (λ x, x ≠ LineSkipped) lines) c)
    as Hloop.
  { intros sid lines. induction lines as [|x lines IH]; intros c; [done|].
    destruct x as [| |l].
    - rewrite filter_cons_False by (by intros H). apply IH.
    - by rewrite filter_cons_True by done.
    - rewrite filter_cons_True by done. cbn [process_lines]. apply IH. }
  unfold create_multi_item_sale, create_multi_item_sale_txn.
  cbn [with_lines mi_csrf_valid mi_lines mi_payment_method mi_payment_receiver].
  by rewrite <- Hloop.
Qed.

(** X11: whatever the request, no item's stock falls below zero through the
    creation of a sale. *)
Theorem create_multi_item_sale_stock_nonneg (u : User) (now : datetime)
    (req : MultiItemRequest) (db : DB) :
  stock_nonneg (inventory db) →
  stock_nonneg (inventory (create_multi_item_sale u now req db).2).
Proof.
  intros Hnn.
  destruct (create_multi_item_sale_inv u now req db)
    as [->|(cs & cid & inv & method & receiver & c & _ & Hrun & _ & ->)];
    [done|].
  cbn [snd inventory]. by eapply process_lines_stock_nonneg.
Qed.

Lemma shop_stock_nonneg : stock_nonneg (inventory (shop "pending")).
Proof.
  intros i it Hi. unfold shop, inventory in Hi.
  apply lookup_insert_Some in Hi as [[_ <-]|[_ Hi]]; [simpl; lia|].
  apply lookup_singleton_Some in Hi as [_ <-]. simpl. lia.
Qed.

Lemma create_multi_item_sale_stock_nonneg_witness :
  stock_nonneg
    (inventory (create_multi_item_sale admin new_year_noon
                  (cash_request overdrawn_lines) (shop "pending")).2).
Proof.
  apply create_multi_item_sale_stock_nonneg. exact shop_stock_nonneg.
Defined.

(** The rows of a stored sale, when every line in the table belongs to a sale
    of the table, are the lines of the request that parse. *)
Lemma create_multi_item_sale_stored (u : User) (now : datetime)
    (req : MultiItemRequest) (db : DB) (sale : Sale) :
  sale_items_integrity db →
  sales (create_multi_item_sale u now req db).2 !! next_id (sales db)
  = Some sale →
  ∃ cs cid inv method receiver,
    request_accepted u now req db cs cid inv method receiver
    ∧ parsed_lines (mi_lines req) ≠ []
    ∧ sale
      = calculate_totals
          (new_sale_item (next_id (sales db)) <$> parsed_lines (mi_lines req))
          (new_multi_item_sale u now cid inv method receiver req)
    ∧ customers (create_multi_item_sale u now req db).2 = cs
    ∧ sale_items (create_multi_item_sale u now req db).2
      = sale_items db
        ++ (new_sale_item (next_id (sales db)) <$> parsed_lines (mi_lines req)).
Proof.
  intros Hint Hsale.
  destruct (create_multi_item_sale_inv u now req db)
    as [Hsame|(cs & cid & inv & method & receiver & c & Hacc & Hrun & Hc & Heq)].
  { rewrite Hsame, next_id_fresh in Hsale. done. }
  rewrite Heq in Hsale |- *. cbn [snd sales customers sale_items] in *.
  rewrite lookup_insert_eq in Hsale. injection Hsale as <-.
  destruct (decide (LineUnparsable ∈ mi_lines req)) as [Hin|Hni].
  { destruct (process_lines_unparsable (next_id (sales db)) (mi_lines req)
                (mk_Cart (inventory db) [] 0 []) Hin) as [fl Hfl].
    congruence. }
  destruct (process_lines_done (next_id (sales db)) (mi_lines req)
              (mk_Cart (inventory db) [] 0 []) Hni)
    as (c' & Hrun' & Hrows & Hcount).
  assert (c' = c) as -> by congruence.
  cbn [cart_rows cart_created app] in Hrows, Hcount.
  exists cs, cid, inv, method, receiver. split; [done|].
  split.
  { intros Hnil. rewrite Hnil in Hcount. simpl in Hcount. done. }
  rewrite Hrows. by rewrite sale_items_of_created.
Qed.



(** X14: a stored sale refers to a customer of the table: the one named by the
    request, or the one made for it. *)
Theorem create_multi_item_sale_customer (u : User) (now : datetime)
    (req : MultiItemRequest) (db : DB) (sale : Sale) :
  sale_items_integrity db →
  sales (create_multi_item_sale u now req db).2 !! next_id (sales db)
  = Some sale →
  is_Some (customers (create_multi_item_sale u now req db).2
             !! customer_id sale)
  ∧ (∀ k c, customers db !! k = Some c →
       customers (create_multi_item_sale u now req db).2 !! k = Some c).
Proof.
  intros Hint Hsale.
  destruct (create_multi_item_sale_stored u now req db sale Hint Hsale)
    as (cs & cid & inv & method & receiver & Hacc & Hne & -> & -> & _).
  destruct Hacc as (_ & _ & Hcust & _).
  assert (customer_id
            (calculate_totals
               (new_sale_item (next_id (sales db))
                  <$> parsed_lines (mi_lines req))
               (new_multi_item_sale u now cid inv method receiver req)) = cid)
    as -> by (unfold calculate_totals; by case_match).
  unfold multi_item_customer in Hcust.
  destruct (mi_customer_id req) as [|id|]; [| |done].
  - case_bool_decide; [done|]. injection Hcust as <- <-.
    split; [rewrite lookup_insert_eq; eauto|].
    intros k c Hk. rewrite lookup_insert_ne; [done|].
    intros <-. by rewrite next_id_fresh in Hk.
  - destruct (customers db !! id) eqn:Hid; [|done].
    injection Hcust as <- <-. split; [by rewrite Hid|done].
Qed.

Lemma create_multi_item_sale_customer_witness :
  ∃ sale,
    sales (create_multi_item_sale admin new_year_noon
             (cash_request (Line <$> valid_lines)) (shop "pending")).2 !! 2
    = Some sale
    ∧ is_Some (customers (create_multi_item_sale admin new_year_noon
                            (cash_request (Line <$> valid_lines))
                            (shop "pending")).2 !! customer_id sale).
Proof.
  eexists. split; [reflexivity|].
  eapply (create_multi_item_sale_customer admin new_year_noon
            (cash_request (Line <$> valid_lines)) (shop "pending")).
  - intros si Hsi. by apply elem_of_nil in Hsi.
  - reflexivity.
Defined.

(** *** Bounds on the stock *)

Lemma requested_nonneg_weak (i : Z) (ls : list LineRequest) :
  (∀ l, l ∈ ls → 0 ≤ lr_quantity l) → 0 ≤ requested i ls.
Proof.
  induction ls as [|l ls IH]; intros Hpos; [done|].
  rewrite requested_cons.
  assert (0 ≤ requested i ls) by (apply IH; intros; apply Hpos; by right).
  assert (0 ≤ lr_quantity l) by (apply Hpos; by left).
  case_bool_decide; lia.
Qed.

Lemma process_lines_stock_bounds (sid : Z) (lines : list SaleLine)
    (c c' : Cart) (i : Z) (it : InventoryItem) :
  (∀ l, l ∈ parsed_lines lines → 0 ≤ lr_quantity l) →
  process_lines sid lines c = Done c' →
  cart_inventory c !! i = Some it →
  ∃ it', cart_inventory c' !! i = Some it'
         ∧ quantity it - requested i (parsed_lines lines) ≤ quantity it'
         ∧ quantity it' ≤ quantity it.
Proof.
  revert c it. induction lines as [|x lines IH]; intros c it Hpos Hrun Hi.
  - injection Hrun as <-. exists it. simpl. split; [done|]. lia.
  - destruct x as [| |l]; cbn [process_lines] in Hrun; [by eapply IH|done|].
    rewrite parsed_lines_cons_line in Hpos |- *.
    assert (0 ≤ lr_quantity l) as Hq by (apply Hpos; by left).
    assert (∃ it1, cart_inventory (add_line sid l c) !! i = Some it1
                   ∧ quantity it
                     - (if bool_decide (lr_inventory_id l = i)
                        then lr_quantity l else 0) ≤ quantity it1
                   ∧ quantity it1 ≤ quantity it) as (it1 & Hi1 & Hlo & Hhi).
    { unfold add_line, take_stock.
      destruct (cart_inventory c !! lr_inventory_id l) as [it0|] eqn:Hit0;
        [|exists it; cbn [cart_inventory]; case_bool_decide as Heq;
          [rewrite Heq, Hi in Hit0; done|split_and!; [done|lia..]]].
      case_bool_decide as Hstock; cbn [cart_inventory].
      - destruct (decide (lr_inventory_id l = i)) as [Heq|Hne].
        + subst i. rewrite lookup_insert_eq.
          rewrite Hi in Hit0. injection Hit0 as <-.
          eexists. split; [done|]. rewrite bool_decide_eq_true_2 by done.
          simpl. lia.
        + rewrite lookup_insert_ne by done. exists it.
          rewrite bool_decide_eq_false_2 by done. split_and!; [done|lia..].
      - exists it. case_bool_decide; split_and!; try done; lia. }
    destruct (IH (add_line sid l c) it1) as (it' & Hi' & Hlo' & Hhi');
      [intros; apply Hpos; by right|done..|].
    exists it'. split; [done|]. rewrite requested_cons.
    case_bool_decide; lia.
Qed.

(** X12: when no line asks for a negative quantity, the creation of a sale never
    raises the stock of an item and takes from it at most what the lines ask
    of it; it neither adds nor removes items and touches nothing of an item
    but quantity and status. *)
Theorem create_multi_item_sale_stock_bounds (u : User) (now : datetime)
    (req : MultiItemRequest) (db : DB) :
  (∀ l, l ∈ parsed_lines (mi_lines req) → 0 ≤ lr_quantity l) →
  (∀ i it, inventory db !! i = Some it →
     ∃ it', inventory (create_multi_item_sale u now req db).2 !! i = Some it'
            ∧ quantity it - requested i (parsed_lines (mi_lines req))
              ≤ quantity it'
            ∧ quantity it' ≤ quantity it)
  ∧ same_inventory_but_stock (inventory db)
      (inventory (create_multi_item_sale u now req db).2).
Proof.
  intros Hpos.
  destruct (create_multi_item_sale_inv u now req db)
    as [->|(cs & cid & inv & method & receiver & c & _ & Hrun & _ & ->)].
  - split; [|apply same_inventory_refl]. intros i it Hi. exists it.
    pose proof (requested_nonneg_weak i _ Hpos). split; [done|]. lia.
  - cbn [snd inventory]. split.
    + intros i it Hi.
      by eapply (process_lines_stock_bounds _ _ (mk_Cart (inventory db) [] 0 [])).
    + by eapply (process_lines_same_inventory _ _
                   (mk_Cart (inventory db) [] 0 [])).
Qed.

Lemma create_multi_item_sale_stock_bounds_witness :
  ∃ it',
    inventory (create_multi_item_sale admin new_year_noon
                 (cash_request overdrawn_lines) (shop "pending")).2 !! 2
    = Some it'
    ∧ 1 - 3 ≤ quantity it' ∧ quantity it' ≤ 1.
Proof.
  destruct (create_multi_item_sale_stock_bounds admin new_year_noon
              (cash_request overdrawn_lines) (shop "pending")) as [H _].
  - intros l Hl. cbn in Hl.
    apply elem_of_cons in Hl as [->|Hl];
      [|apply elem_of_cons in Hl as [->|Hl]; [|by apply elem_of_nil in Hl]];
      simpl; lia.
  - exact (H 2 (gadget 1 "available") eq_refl).
Defined.

(** ** Invoice numbering, further *)

(** X4: the number generated is not in the table yet when the numbers of the day
    in the table carry sequences of four digits. *)
Theorem generated_invoice_number_fresh (today : datetime)
    (existing : list string) (inv : string) :
  day_numbers_well_formed today existing →
  generated_invoice_number today existing = Some inv →
  inv ∉ existing.
Proof.
  intros Hwf Hgen Hin.
  destruct (day_numbers_sequences today
              (filter (λ s, String.prefix (invoice_prefix today) s = true)
                 existing)) as (ns & Hns & Hfilter).
  { intros s [Hp Hs]%list_elem_of_filter. by apply Hwf. }
  rewrite (generated_invoice_number_of_sequences today existing ns)
    in Hgen by done.
  injection Hgen as <-.
  assert (day_invoice today (max_sequence ns + 1)
            ∈ filter (λ s, String.prefix (invoice_prefix today) s = true)
                existing) as Hin'.
  { apply list_elem_of_filter. split; [apply day_invoice_prefix|done]. }
  rewrite Hfilter in Hin'.
  apply list_elem_of_fmap in Hin' as (k & Heq & Hk).
  apply day_invoice_inj in Heq. apply max_sequence_ge in Hk. lia.
Qed.

Lemma generated_invoice_number_fresh_witness :
  "INV20250101-0002" ∉ ["INV20250101-0001"; "INV20241231-0007"].
Proof.
  apply (generated_invoice_number_fresh new_year_noon).
  - intros s Hs Hp.
    apply elem_of_cons in Hs as [->|Hs];
      [|apply elem_of_cons in Hs as [->|Hs]; [|by apply elem_of_nil in Hs]].
    + exists 1%N. split; [lia|reflexivity].
    + discriminate Hp.
  - reflexivity.
Defined.

(** The greatest of a list of texts that holds an upper bound of its own is
    that bound. *)
Lemma foldl_str_max_upper (u x : string) (l : list string) :
  (∀ s, s ∈ x :: l → String.leb s u = true) → u ∈ x :: l →
  foldl str_max x l = u.
Proof.
  revert x. induction l as [|y l IH]; intros x Hle Hin.
  - apply elem_of_cons in Hin as [->|Hin]; [done|by apply elem_of_nil in Hin].
  - cbn [foldl]. apply IH.
    + intros s Hs. apply elem_of_cons in Hs as [->|Hs].
      * unfold str_max. destruct (String.leb x y); apply Hle.
        -- right; by left.
        -- by left.
      * apply Hle. by do 2 right.
    + apply elem_of_cons in Hin as [->|Hin].
      * unfold str_max. destruct (String.leb x y) eqn:Hxy; [|by left].
        assert (x = y) as <-; [|by left].
        apply String.leb_antisym; [done|]. apply Hle. right; by left.
      * apply elem_of_cons in Hin as [->|Hin]; [|by right].
        unfold str_max. rewrite Hle by (by left). by left.
Qed.

(** Once sequence 9999 of a day is in the table, every call on that day gives
    sequence 10000: in the order of the texts 10000 comes before 9999, so the
    last number found stays 9999. *)
Theorem generated_invoice_number_after_9999 (today : datetime)
    (existing : list string) :
  (∀ s, s ∈ existing → String.prefix (invoice_prefix today) s = true →
     ∃ n, (n ≤ 10000)%N ∧ s = day_invoice today n) →
  day_invoice today 9999 ∈ existing →
  generated_invoice_number today existing = Some (day_invoice today 10000).
Proof.
  intros Hform Hin.
  set (F := filter (λ s, String.prefix (invoice_prefix today) s = true)
              existing).
  assert (day_invoice today 9999 ∈ F) as HinF.
  { apply list_elem_of_filter. split; [apply day_invoice_prefix|done]. }
  assert (∀ s, s ∈ F → String.leb s (day_invoice today 9999) = true) as Hle.
  { intros s [Hp Hs]%list_elem_of_filter.
    destruct (Hform s Hs Hp) as (n & Hn & ->). unfold String.leb.
    destruct (decide (n = 10000%N)) as [->|Hne].
    - unfold day_invoice. by rewrite !compare_append.
    - rewrite compare_day_invoice by lia.
      destruct (n ?= 9999)%N eqn:Hc; try done.
      apply N.compare_gt_iff in Hc. lia. }
  unfold generated_invoice_number, last_invoice. fold F.
  destruct F as [|x l]; [by apply elem_of_nil in HinF|].
  rewrite (foldl_str_max_upper (day_invoice today 9999)) by done.
  by rewrite last_segment_day_invoice, int_of_string_format.
Qed.

Lemma generated_invoice_number_after_9999_witness :
  generated_invoice_number new_year_noon
    ["INV20250101-10000"; "INV20250101-9999"]
  = Some (day_invoice new_year_noon 10000).
Proof.
  apply generated_invoice_number_after_9999.
  - intros s Hs Hp.
    apply elem_of_cons in Hs as [->|Hs];
      [|apply elem_of_cons in Hs as [->|Hs]; [|by apply elem_of_nil in Hs]].
    + exists 10000%N. split; [lia|reflexivity].
    + exists 9999%N. split; [lia|reflexivity].
  - apply elem_of_cons. right. apply elem_of_cons. by left.
Defined.

(** X6: once the sequences 9999 and 10000 of a day are in the table, no
    multi-item sale can be created that day: the number generated is taken,
    the flush fails and the request is rolled back. *)
Theorem create_multi_item_sale_day_full (u : User) (now : datetime)
    (req : MultiItemRequest) (db : DB) (cs : gmap Z Customer) (cid : Z) :
  has_permission u "create_sales" = true →
  mi_csrf_valid req = true →
  multi_item_customer req db = CustomerOk cs cid →
  (∀ s, s ∈ invoice_numbers db →
     String.prefix (invoice_prefix now) s = true →
     ∃ n, (n ≤ 10000)%N ∧ s = day_invoice now n) →
  day_invoice now 9999 ∈ invoice_numbers db →
  day_invoice now 10000 ∈ invoice_numbers db →
  create_multi_item_sale u now req db
  = (Redirect "sales" [error_creating_sale], db).
Proof.
  intros Hperm Hcsrf Hcust Hform H9999 H10000.
  unfold create_multi_item_sale, create_multi_item_sale_txn.
  rewrite Hperm, Hcsrf, Hcust. cbn [negb].
  rewrite (generated_invoice_number_after_9999 now _ Hform H9999).
  destruct (mi_payment_method req), (mi_payment_receiver req); try done.
  by rewrite bool_decide_eq_true_2.
Qed.

Lemma full_day_shop_numbers :
  invoice_numbers full_day_shop = ["INV20250101-10000"; "INV20250101-9999"].
Proof. vm_compute. reflexivity. Qed.

Lemma create_multi_item_sale_day_full_witness :
  create_multi_item_sale admin new_year_noon
    (cash_request (Line <$> valid_lines)) full_day_shop
  = (Redirect "sales" [error_creating_sale], full_day_shop).
Proof.
  apply (create_multi_item_sale_day_full _ _ _ _ (customers full_day_shop) 1);
    try reflexivity.
  - rewrite full_day_shop_numbers. intros s Hs Hp.
    apply elem_of_cons in Hs as [->|Hs];
      [|apply elem_of_cons in Hs as [->|Hs]; [|by apply elem_of_nil in Hs]].
    + exists 10000%N. split; [lia|reflexivity].
    + exists 9999%N. split; [lia|reflexivity].
  - rewrite full_day_shop_numbers. apply elem_of_cons. right.
    apply elem_of_cons. by left.
  - rewrite full_day_shop_numbers. apply elem_of_cons. by left.
Defined.

(** *** Days do not interfere *)

Lemma append_inj_length (a a' r r' : string) :
  String.length a = String.length a' → a +:+ r = a' +:+ r' →
  a = a' ∧ r = r'.
Proof.
  revert a'. induction a as [|x a IH]; intros [|y a'] Hlen H;
    simpl in Hlen; try done.
  rewrite !append_cons in H. injection H as -> H.
  destruct (IH a') as [-> ->]; [congruence|done|done].
Qed.

Lemma length_invoice_prefix (d : datetime) :
  valid_date d → String.length (invoice_prefix d) = 11%nat.
Proof.
  intros (Hy & Hm & Hd). unfold invoice_prefix, strftime_Ymd.
  rewrite !length_append, !length_format_0d by (simpl; lia). done.
Qed.

(** The prefix tells the day. *)
Lemma invoice_prefix_inj (d d' : datetime) :
  valid_date d → valid_date d' →
  invoice_prefix d = invoice_prefix d' → same_day d d'.
Proof.
  intros (Hy & Hm & Hd) (Hy' & Hm' & Hd') H.
  unfold invoice_prefix, strftime_Ymd in H. apply append_inj_l in H.
  apply append_inj_length in H as [Hyear H];
    [|by rewrite !length_format_0d by (simpl; lia)].
  apply append_inj_length in H as [Hmonth Hday];
    [|by rewrite !length_format_0d by (simpl; lia)].
  apply format_0d_inj in Hyear, Hmonth, Hday. done.
Qed.

(** X5: the invoice numbers of other days play no part: with only such numbers in
    the table the sequence starts at 1, and a number of one day is never a
    number of another. *)
Theorem generated_invoice_number_new_day (today : datetime)
    (existing : list string) :
  valid_date today →
  (∀ s, s ∈ existing →
     ∃ other n, valid_date other ∧ ¬ same_day other today
                ∧ s = day_invoice other n) →
  generated_invoice_number today existing = Some (day_invoice today 1)
  ∧ ∀ n, day_invoice today n ∉ existing.
Proof.
  intros Hvalid Hother.
  assert (∀ s, s ∈ existing →
            String.prefix (invoice_prefix today) s = false) as Hnone.
  { intros s Hs. destruct (Hother s Hs) as (other & n & Hv & Hday & ->).
    apply other_day_no_prefix.
    - by rewrite !length_invoice_prefix.
    - intros Heq. by apply Hday, invoice_prefix_inj. }
  split.
  - unfold generated_invoice_number, last_invoice.
    replace (filter _ existing) with (@nil string); [done|].
    symmetry. apply elem_of_nil_inv.
    intros s [Hp Hs]%list_elem_of_filter. rewrite Hnone in Hp; done.
  - intros n Hin. specialize (Hnone _ Hin).
    by rewrite day_invoice_prefix in Hnone.
Qed.

Lemma generated_invoice_number_new_day_witness :
  generated_invoice_number next_day_noon
    ["INV20250101-0001"; "INV20250101-0002"]
  = Some (day_invoice next_day_noon 1).
Proof.
  apply generated_invoice_number_new_day.
  - repeat split; simpl; lia.
  - intros s Hs. exists new_year_noon.
    apply elem_of_cons in Hs as [->|Hs];
      [|apply elem_of_cons in Hs as [->|Hs]; [|by apply elem_of_nil in Hs]].
    + exists 1%N. split; [repeat split; simpl; lia|].
      split; [|reflexivity]. intros (_ & _ & H). discriminate H.
    + exists 2%N. split; [repeat split; simpl; lia|].
      split; [|reflexivity]. intros (_ & _ & H). discriminate H.
Defined.

(** ** Voiding, further *)

(** X15: [void_sale] as it is routed refuses every user: it asks for a permission
    that no role carries, answers with the permission message and changes
    nothing. *)
Theorem void_sale_refuses_everyone (u : User) (now : datetime) (sale_id : Z)
    (reason : string) (db : DB) :
  void_sale u now sale_id reason db
  = (Redirect "sales" [("You do not have permission to void sales", "danger")],
     db).
Proof. unfold void_sale. by rewrite void_sales_not_granted. Qed.

(** *** Blank texts *)

Lemma rstrip_all_space (s : string) : all_space s = true → rstrip s = "".
Proof.
  induction s as [|c s IH]; [done|]. cbn [all_space rstrip].
  intros [Hc Hs]%andb_true_iff. by rewrite IH, Hc.
Qed.

Lemma strip_all_space (s : string) : all_space s = true → strip s = "".
Proof. intros H. unfold strip. by rewrite rstrip_all_space. Qed.

Lemma lstrip_nil_all_space (s : string) : lstrip s = "" → all_space s = true.
Proof.
  induction s as [|c s IH]; [done|]. cbn [lstrip all_space].
  destruct (is_space c); [exact IH|done].
Qed.

Lemma rstrip_nil_all_space (s : string) : rstrip s = "" → all_space s = true.
Proof.
  induction s as [|c s IH]; [done|]. cbn [rstrip all_space].
  destruct (rstrip s); [|done].
  destruct (is_space c); [intros _; by apply IH|done].
Qed.

Lemma all_space_rstrip (s : string) :
  all_space (rstrip s) = true → rstrip s = "".
Proof.
  induction s as [|c s IH]; [done|]. cbn [rstrip].
  destruct (rstrip s) as [|d r] eqn:E.
  - destruct (is_space c) eqn:Hc; [done|]. cbn [all_space]. by rewrite Hc.
  - cbn [all_space]. intros [_ H]%andb_true_iff.
    cbn [all_space] in IH. by specialize (IH H).
Qed.

Lemma strip_nil_all_space (s : string) : strip s = "" → all_space s = true.
Proof.
  unfold strip. intros H. apply rstrip_nil_all_space, all_space_rstrip.
  by apply lstrip_nil_all_space.
Qed.

(** X16: a void reason of white space only is refused and nothing changes; a
    reason that is taken has some other character. *)
Theorem void_sale_blank_reason (u : User) (now : datetime) (sale_id : Z)
    (reason : string) (db : DB) (sale : Sale) :
  sales db !! sale_id = Some sale →
  payment_status sale ≠ "voided" →
  (all_space reason = true →
   void_sale_txn u now sale_id reason db
   = (Redirect "sales" [("Void reason is required", "danger")], db))
  ∧ ((void_sale_txn u now sale_id reason db).1
     = sale_voided (invoice_number sale) →
     all_space reason = false).
Proof.
  intros Hsale Hst. unfold void_sale_txn. rewrite Hsale.
  rewrite bool_decide_eq_false_2 by done. split.
  - intros Hblank. rewrite strip_all_space by done.
    by rewrite bool_decide_eq_true_2.
  - case_bool_decide as Hstrip; [done|]. intros _.
    destruct (all_space reason) eqn:E; [|done].
    by rewrite strip_all_space in Hstrip.
Qed.

Lemma void_sale_blank_reason_witness :
  void_sale_txn admin new_year_noon 1 "   " (shop "pending")
  = (Redirect "sales" [("Void reason is required", "danger")], shop "pending").
Proof.
  apply (void_sale_blank_reason admin new_year_noon 1 "   " (shop "pending")
           (single_item_sale "pending")); [reflexivity|discriminate|reflexivity].
Defined.

(** X10: a new customer whose name is white space only is refused and nothing
    changes. *)
Theorem create_multi_item_sale_blank_name (u : User) (now : datetime)
    (req : MultiItemRequest) (db : DB) :
  has_permission u "create_sales" = true →
  mi_csrf_valid req = true →
  mi_customer_id req = CustomerNew →
  all_space (mi_new_customer_name req) = true →
  create_multi_item_sale u now req db
  = (Redirect "sales" [("Customer name is required", "danger")], db).
Proof.
  intros Hperm Hcsrf Hnew Hblank.
  unfold create_multi_item_sale, create_multi_item_sale_txn,
    multi_item_customer.
  rewrite Hperm, Hcsrf, Hnew, strip_all_space by done. cbn [negb].
  by rewrite bool_decide_eq_true_2.
Qed.

Lemma create_multi_item_sale_blank_name_witness :
  create_multi_item_sale admin new_year_noon
    {| mi_csrf_valid := true;
       mi_customer_id := CustomerNew;
       mi_new_customer_name := "  ";
       mi_new_customer_email := "";
       mi_new_customer_phone := "";
       mi_payment_method := Some "cash";
       mi_payment_receiver := Some "Bob";
       mi_notes := "";
       mi_zelle_payment := false;
       mi_lines := Line <$> valid_lines |}
    (shop "pending")
  = (Redirect "sales" [("Customer name is required", "danger")],
     shop "pending").
Proof. apply create_multi_item_sale_blank_name; reflexivity. Defined.

(** *** Void once *)



(** X18: a void is all or nothing: either the database is as before, or the sale
    existed, the success message is given and the sale is voided. *)
Theorem void_sale_all_or_nothing (u : User) (now : datetime) (sale_id : Z)
    (reason : string) (db : DB) :
  (void_sale_txn u now sale_id reason db).2 = db
  ∨ ∃ sale sale',
      sales db !! sale_id = Some sale
      ∧ payment_status sale ≠ "voided"
      ∧ (void_sale_txn u now sale_id reason db).1
        = sale_voided (invoice_number sale)
      ∧ sales (void_sale_txn u now sale_id reason db).2 !! sale_id
        = Some sale'
      ∧ payment_status sale' = "voided"
      ∧ void_reason sale' = Some (strip reason).
Proof.
  unfold void_sale_txn.
  destruct (sales db !! sale_id) as [sale|] eqn:Hsale; [|by left].
  case_bool_decide as Hst; [by left|].
  case_bool_decide as Hreason; [by left|].
  destruct (void_legacy_item sale (inventory db)) as [inv|]; [|by left].
  right. exists sale. eexists. cbn [fst snd sales].
  rewrite lookup_insert_eq. done.
Qed.

(** *** The units given back *)

Lemma returned_cons (i : Z) (si : SaleItem) (rows : list SaleItem) :
  returned i (si :: rows)
  = if bool_decide (si_inventory_id si = i)
    then si_quantity_sold si + returned i rows else returned i rows.
Proof. reflexivity. Qed.

Lemma returned_unnamed (i : Z) (rows : list SaleItem) :
  i ∉ si_inventory_id <$> rows → returned i rows = 0.
Proof.
  induction rows as [|si rows IH]; intros Hni; [done|].
  rewrite returned_cons. rewrite fmap_cons in Hni.
  apply not_elem_of_cons in Hni as [Hne Hni].
  rewrite bool_decide_eq_false_2 by done. by apply IH.
Qed.

(** The loop of [void_sale] over any lines: an item gets the units of its
    lines back, and is available when a line names it. *)
Lemma void_lines_returned (rows : list SaleItem) (inv : gmap Z InventoryItem)
    (i : Z) :
  foldl void_line inv rows !! i
  = (λ it, if bool_decide (i ∈ si_inventory_id <$> rows)
           then set_stock it (quantity it + returned i rows) "available"
           else it)
    <$> inv !! i.
Proof.
  revert inv. induction rows as [|si rows IH]; intros inv.
  - simpl. by destruct (inv !! i).
  - cbn [foldl]. rewrite IH. rewrite fmap_cons, returned_cons.
    unfold void_line.
    destruct (decide (si_inventory_id si = i)) as [<-|Hne].
    + rewrite (bool_decide_eq_true_2 (_ ∈ _ :: _)) by (by left).
      rewrite (bool_decide_eq_true_2 (si_inventory_id si = si_inventory_id si))
        by done.
      destruct (inv !! si_inventory_id si) as [it|] eqn:Hit.
      * rewrite lookup_insert_eq. simpl. f_equal.
        case_bool_decide as Hin.
        -- cbn [give_back set_stock quantity]. f_equal. lia.
        -- rewrite returned_unnamed by done. unfold give_back. f_equal. lia.
      * by rewrite Hit.
    + rewrite (bool_decide_eq_false_2 (si_inventory_id si = i)) by done.
      rewrite (bool_decide_ext (i ∈ si_inventory_id si
                                    :: (si_inventory_id <$> rows))
                 (i ∈ si_inventory_id <$> rows));
        [|rewrite elem_of_cons;
          split; [intros [Heq|Hin]; [congruence|done]|by right]].
      destruct (inv !! si_inventory_id si) as [it|] eqn:Hit; [|done].
      by rewrite lookup_insert_ne by done.
Qed.

(** X19: a void that goes through gives every item exactly the units back that
    the sale holds for it, in its legacy column and in its lines, whatever the
    stock of the item is by then; an item the sale names is available
    afterwards, any other item is as before. *)
Theorem void_sale_returns (u : User) (now : datetime) (sale_id : Z)
    (reason : string) (db : DB) (sale : Sale) (i : Z) (it : InventoryItem) :
  sales db !! sale_id = Some sale →
  payment_status sale ≠ "voided" →
  strip reason ≠ "" →
  inventory_id sale = None ∨ is_Some (quantity_sold sale) →
  inventory db !! i = Some it →
  let rows := sale_items_of sale_id (sale_items db) in
  ∃ it',
    inventory (void_sale_txn u now sale_id reason db).2 !! i = Some it'
    ∧ quantity it' = quantity it + legacy_returned sale i + returned i rows
    ∧ status it'
      = (if decide (named_by sale rows i) then "available" else status it)
    ∧ (¬ named_by sale rows i → it' = it).
Proof.
  intros Hsale Hst Hreason Hlegacy Hi rows.
  destruct (void_legacy_item_total sale (inventory db) Hlegacy) as [inv Hinv].
  unfold void_sale_txn. rewrite Hsale.
  rewrite bool_decide_eq_false_2 by done.
  rewrite bool_decide_eq_false_2 by done.
  rewrite Hinv. cbn [snd inventory]. fold rows.
  rewrite void_lines_returned.
  assert (∃ it1, inv !! i = Some it1
                 ∧ quantity it1 = quantity it + legacy_returned sale i
                 ∧ ((inventory_id sale = Some i ∧ i ≠ 0) →
                    status it1 = "available")
                 ∧ (¬ (inventory_id sale = Some i ∧ i ≠ 0) → it1 = it))
    as (it1 & Hi1 & Hq1 & Hs1 & Hsame).
  { unfold void_legacy_item in Hinv. unfold legacy_returned.
    destruct (inventory_id sale) as [j|] eqn:Hj;
      [|injection Hinv as <-; exists it; split_and!;
        [done|lia|by intros [? ?]|done]].
    destruct (quantity_sold sale) as [q|] eqn:Hq.
    - case_bool_decide as Hj0.
      + injection Hinv as <-. exists it.
        rewrite bool_decide_eq_false_2 by (intros [? ?]; done).
        split_and!; [done|lia|intros [[= ->] ?]; done|done].
      + destruct (inventory db !! j) as [itj|] eqn:Hitj.
        * injection Hinv as <-.
          destruct (decide (j = i)) as [->|Hne].
          -- rewrite lookup_insert_eq. rewrite Hi in Hitj.
             injection Hitj as <-. eexists. split; [done|].
             rewrite bool_decide_eq_true_2 by done.
             split_and!; [done|done|]. intros []. done.
          -- rewrite lookup_insert_ne by done. exists it.
             rewrite bool_decide_eq_false_2 by (intros [? ?]; done).
             split_and!; [done|lia|intros [[= ->] ?]; done|done].
        * injection Hinv as <-. exists it.
          case_bool_decide as Hji.
          -- destruct Hji as [-> _]. by rewrite Hi in Hitj.
          -- split_and!; [done|lia|intros [[= ->] ?]; by rewrite Hi in Hitj|done].
    - destruct Hlegacy as [?|[? ?]]; [done|done]. }
  rewrite Hi1. cbn [fmap option_fmap option_map]. eexists. split; [reflexivity|].
  case_bool_decide as Hrows.
  - cbn [set_stock quantity status]. split; [lia|]. split.
    + rewrite decide_True; [done|]. by right.
    + intros Hnot. exfalso. apply Hnot. by right.
  - rewrite returned_unnamed by done. split; [lia|]. split.
    + destruct (decide (named_by sale rows i)) as [[Hleg|Hin]|Hnot].
      * by apply Hs1.
      * done.
      * rewrite Hsame; [done|]. intros Hleg. apply Hnot. by left.
    + intros Hnot. apply Hsame. intros Hleg. apply Hnot. by left.
Qed.

Lemma void_sale_returns_witness :
  ∃ it',
    inventory (void_sale_txn admin new_year_noon 1 "returned"
                 (shop "pending")).2 !! 1 = Some it'
    ∧ quantity it' = 5 + 5 + 0.
Proof.
  destruct (void_sale_returns admin new_year_noon 1 "returned" (shop "pending")
              (single_item_sale "pending") 1 (widget 5 "available"))
    as (it' & Hi & Hq & _);
    [reflexivity|discriminate|discriminate|right; by eexists|reflexivity|].
  exists it'. split; [exact Hi|exact Hq].
Defined.

(** ** Roles *)

Lemma has_permission_office_admin (u : User) (p : string) :
  has_permission u p = true →
  existsb (String.eqb p) (permissions "office_admin") = true.
Proof.
  unfold has_permission, permissions.
  destruct (String.eqb (role u) "office_admin"); [done|].
  destruct (String.eqb (role u) "sales_staff").
  { cbn [existsb]. intros H.
    repeat (apply orb_prop in H as [H|H];
            [apply String.eqb_eq in H as ->; reflexivity|]).
    done. }
  destruct (String.eqb (role u) "intake_staff"); [|done].
  cbn [existsb]. intros H.
  repeat (apply orb_prop in H as [H|H];
          [apply String.eqb_eq in H as ->; reflexivity|]).
  done.
Qed.

(** X3: the office administrator holds every permission that any user holds. *)
Theorem has_permission_admin_most (u a : User) (p : string) :
  role a = "office_admin" →
  has_permission u p = true →
  has_permission a p = true.
Proof.
  intros Ha Hp. unfold has_permission at 1. rewrite Ha.
  by apply (has_permission_office_admin u).
Qed.

Lemma has_permission_admin_most_witness :
  has_permission admin "create_sales" = true.
Proof.
  apply (has_permission_admin_most clerk admin "create_sales"); reflexivity.
Defined.

Lemma edit_sales_office_admin (u : User) :
  role u ≠ "office_admin" → has_permission u "edit_sales" = false.
Proof.
  intros Hrole. unfold has_permission, permissions.
  rewrite (proj2 (String.eqb_neq _ _) Hrole).
  destruct (String.eqb (role u) "sales_staff"); [reflexivity|].
  destruct (String.eqb (role u) "intake_staff"); reflexivity.
Qed.

(** ** Editing *)

(** X22: only the office administrator edits a sale: any other user gets the
    permission message and nothing changes. *)
Theorem edit_sale_office_admin_only (fk : bool) (u : User) (sale_id : Z)
    (req : EditSaleRequest) (db : DB) :
  role u ≠ "office_admin" →
  edit_sale fk u sale_id req db
  = (Redirect "sales" [("You do not have permission to edit sales", "danger")],
     db).
Proof.
  intros Hrole. unfold edit_sale. by rewrite edit_sales_office_admin.
Qed.

Lemma edit_sale_office_admin_only_witness :
  edit_sale true clerk 1
    (mk_EditSaleRequest (Some 1) (Some "card") (Some "Bob") "" false)
    (shop "pending")
  = (Redirect "sales" [("You do not have permission to edit sales", "danger")],
     shop "pending").
Proof. apply edit_sale_office_admin_only. discriminate. Defined.

(** X23: an edit touches neither the stock, nor the customers, nor the lines, nor
    any other sale, and it creates and deletes no sale; of the sale itself it
    leaves the invoice number, the date, the amounts, the payment status, the
    confirmation, the void record and the legacy columns as they are. *)
Theorem edit_sale_frame (fk : bool) (u : User) (sale_id : Z)
    (req : EditSaleRequest) (db : DB) :
  let db' := (edit_sale fk u sale_id req db).2 in
  inventory db' = inventory db
  ∧ customers db' = customers db
  ∧ sale_items db' = sale_items db
  ∧ (∀ j, j ≠ sale_id → sales db' !! j = sales db !! j)
  ∧ option_Forall2 same_sale_but_edited
      (sales db !! sale_id) (sales db' !! sale_id).
Proof.
  assert (∀ s, same_sale_but_edited s s) as Hrefl
    by (intros s; unfold same_sale_but_edited; by split_and!).
  assert (inventory db = inventory db
          ∧ customers db = customers db
          ∧ sale_items db = sale_items db
          ∧ (∀ j, j ≠ sale_id → sales db !! j = sales db !! j)
          ∧ option_Forall2 same_sale_but_edited
              (sales db !! sale_id) (sales db !! sale_id)) as Hsame
    by (split_and!; try done;
        destruct (sales db !! sale_id); constructor; apply Hrefl).
  cbv zeta. unfold edit_sale.
  destruct (negb (has_permission u "edit_sales")); [exact Hsame|].
  destruct (sales db !! sale_id) as [sale|] eqn:Hsale;
    [|cbn [snd]; by rewrite Hsale].
  case_bool_decide; [cbn [snd]; by rewrite Hsale|].
  destruct (es_customer_id req) as [cid|]; [|cbn [snd]; by rewrite Hsale].
  destruct (es_payment_method req) as [method|];
    [|cbn [snd]; by rewrite Hsale].
  destruct (es_payment_receiver req) as [receiver|];
    [|cbn [snd]; by rewrite Hsale].
  destruct (fk && bool_decide (customers db !! cid = None));
    [cbn [snd]; by rewrite Hsale|].
  cbn [snd inventory customers sale_items sales]. split_and!; try done.
  - intros j Hj. by rewrite lookup_insert_ne.
  - rewrite lookup_insert_eq. constructor.
    unfold same_sale_but_edited. by split_and!.
Qed.

(** A sale that was voided is not edited any more. *)
Theorem void_then_edit_refused (fk : bool) (u v : User) (now : datetime)
    (sale_id : Z) (reason : string) (req : EditSaleRequest) (db : DB)
    (sale : Sale) :
  sales db !! sale_id = Some sale →
  payment_status sale ≠ "voided" →
  strip reason ≠ "" →
  inventory_id sale = None ∨ is_Some (quantity_sold sale) →
  role v = "office_admin" →
  ∃ db1,
    void_sale_txn u now sale_id reason db
    = (sale_voided (invoice_number sale), db1)
    ∧ edit_sale fk v sale_id req db1
      = (Redirect "sales" [("Cannot edit a voided sale", "danger")], db1).
Proof.
  intros Hsale Hst Hreason Hlegacy Hrole.
  destruct (void_legacy_item_total sale (inventory db) Hlegacy) as [inv Hinv].
  unfold void_sale_txn. rewrite Hsale.
  rewrite bool_decide_eq_false_2 by done.
  rewrite bool_decide_eq_false_2 by done.
  rewrite Hinv. eexists. split; [reflexivity|].
  unfold edit_sale, has_permission. rewrite Hrole. cbn [sales].
  rewrite lookup_insert_eq. cbn [set_voided payment_status].
  by rewrite bool_decide_eq_true_2.
Qed.

Lemma void_then_edit_refused_witness :
  ∃ db1,
    void_sale_txn admin new_year_noon 1 "returned" (shop "pending")
    = (sale_voided "INV20250101-0001", db1)
    ∧ edit_sale true admin 1
        (mk_EditSaleRequest (Some 1) (Some "card") (Some "Bob") "" false) db1
      = (Redirect "sales" [("Cannot edit a voided sale", "danger")], db1).
Proof.
  apply (void_then_edit_refused true admin admin new_year_noon 1 "returned"
           (mk_EditSaleRequest (Some 1) (Some "card") (Some "Bob") "" false)
           (shop "pending") (single_item_sale "pending"));
    [reflexivity|discriminate|discriminate|right; by eexists|reflexivity].
Defined.

(** ** Deleting a sale *)

Lemma restore_stock_restore_stock (it : InventoryItem) (a b : Z) :
  restore_stock (restore_stock it a) b = restore_stock it (a + b).
Proof.
  unfold restore_stock. cbn [set_stock quantity status].
  destruct (String.eqb (status it) "sold") eqn:E.
  - cbn. f_equal. lia.
  - rewrite E. f_equal. lia.
Qed.

(** The loop of [admin_delete_sale] over the lines of a sale: an item gets
    the units of its lines back, and is available again when it was sold
    out. *)
Lemma delete_lines_returned (rows : list SaleItem)
    (inv : gmap Z InventoryItem) (i : Z) :
  foldl delete_line inv rows !! i
  = (λ it, if bool_decide (i ∈ si_inventory_id <$> rows)
           then restore_stock it (returned i rows) else it)
    <$> inv !! i.
Proof.
  revert inv. induction rows as [|si rows IH]; intros inv.
  - simpl. by destruct (inv !! i).
  - cbn [foldl]. rewrite IH. rewrite fmap_cons, returned_cons.
    unfold delete_line.
    destruct (decide (si_inventory_id si = i)) as [<-|Hne].
    + rewrite (bool_decide_eq_true_2 (_ ∈ _ :: _)) by (by left).
      rewrite (bool_decide_eq_true_2 (si_inventory_id si = si_inventory_id si))
        by done.
      destruct (inv !! si_inventory_id si) as [it|] eqn:Hit.
      * rewrite lookup_insert_eq. simpl. f_equal.
        case_bool_decide as Hin.
        -- apply restore_stock_restore_stock.
        -- rewrite returned_unnamed by done. by rewrite Z.add_0_r.
      * by rewrite Hit.
    + rewrite (bool_decide_eq_false_2 (si_inventory_id si = i)) by done.
      rewrite (bool_decide_ext (i ∈ si_inventory_id si
                                    :: (si_inventory_id <$> rows))
                 (i ∈ si_inventory_id <$> rows));
        [|rewrite elem_of_cons;
          split; [intros [Heq|Hin]; [congruence|done]|by right]].
      destruct (inv !! si_inventory_id si) as [it|] eqn:Hit; [|done].
      by rewrite lookup_insert_ne by done.
Qed.

Lemma returned_new_rows (sid i : Z) (ls : list LineRequest) :
  returned i (new_sale_item sid <$> ls) = requested i ls.
Proof.
  induction ls as [|l ls IH]; [done|].
  rewrite fmap_cons, returned_cons, requested_cons, IH. done.
Qed.

Lemma new_rows_inventory_ids (sid : Z) (ls : list LineRequest) :
  si_inventory_id <$> (new_sale_item sid <$> ls) = lr_inventory_id <$> ls.
Proof. induction ls as [|l ls IH]; [done|]. rewrite !fmap_cons. by f_equal. Qed.

Lemma calculate_totals_inventory_id (rows : list SaleItem) (s : Sale) :
  inventory_id (calculate_totals rows s) = inventory_id s.
Proof. unfold calculate_totals. by destruct rows. Qed.

Lemma calculate_totals_invoice_number (rows : list SaleItem) (s : Sale) :
  invoice_number (calculate_totals rows s) = invoice_number s.
Proof. unfold calculate_totals. by destruct rows. Qed.

Lemma other_sales_rows_all (sid : Z) (rows : list SaleItem) :
  (∀ si, si ∈ rows → si_sale_id si ≠ sid) →
  filter (λ si, si_sale_id si ≠ sid) rows = rows.
Proof.
  induction rows as [|si rows IH]; intros Hall; [done|].
  rewrite filter_cons_True by (apply Hall; by left).
  f_equal. apply IH. intros x Hx. apply Hall. by right.
Qed.

Lemma other_sales_rows_fresh (db : DB) :
  sale_items_integrity db →
  filter (λ si, si_sale_id si ≠ next_id (sales db)) (sale_items db)
  = sale_items db.
Proof.
  intros Hint. apply other_sales_rows_all. intros si Hsi Heq.
  pose proof (next_id_above _ _ (Hint si Hsi)) as Hlt. lia.
Qed.

Lemma other_sales_rows_new (sid : Z) (ls : list LineRequest) :
  filter (λ si, si_sale_id si ≠ sid) (new_sale_item sid <$> ls) = [].
Proof.
  induction ls as [|l ls IH]; [done|].
  rewrite fmap_cons, filter_cons_False; [done|]. intros H. by apply H.
Qed.

(** X24: creating a valid multi-item sale and deleting it again, as the office
    administrator, undoes the sale: the sales and the lines are those of
    before, every item has its quantity of before, and the inventory is as
    before when the items sold were available. *)
Theorem create_then_delete_restores (u a : User) (now : datetime)
    (req : MultiItemRequest) (db : DB) (ls : list LineRequest)
    (cs : gmap Z Customer) (cid : Z) (inv method receiver : string) :
  request_accepted u now req db cs cid inv method receiver →
  mi_lines req = Line <$> ls →
  ls ≠ [] →
  lines_valid (inventory db) ls →
  sale_items_integrity db →
  role a = "office_admin" →
  ∃ db1 db2,
    create_multi_item_sale u now req db = (sale_created inv, db1)
    ∧ admin_delete_sale a (next_id (sales db)) db1 = (sale_deleted inv, db2)
    ∧ sales db2 = sales db
    ∧ sale_items db2 = sale_items db
    ∧ customers db2 = cs
    ∧ (∀ i it, inventory db !! i = Some it →
         ∃ it2, inventory db2 !! i = Some it2
                ∧ quantity it2 = quantity it
                ∧ same_item_but_stock it it2)
    ∧ ((∀ l it, l ∈ ls → inventory db !! lr_inventory_id l = Some it →
          status it = "available") →
       inventory db2 = inventory db).
Proof.
  intros Hacc Hlines Hne Hvalid Hint Hrole.
  destruct (create_multi_item_sale_valid_db u now req db ls cs cid inv method
              receiver Hacc Hlines Hne Hvalid Hint) as (stock & Hrun & Hstock).
  eexists _, _. split; [exact Hrun|].
  unfold admin_delete_sale. rewrite Hrole. cbn [String.eqb negb].
  cbn [sales inventory sale_items customers].
  rewrite lookup_insert_eq.
  unfold delete_restores, legacy_item.
  rewrite calculate_totals_inventory_id, calculate_totals_invoice_number.
  cbn [new_multi_item_sale inventory_id invoice_number].
  rewrite sale_items_of_created by done.
  split; [reflexivity|]. cbn [sales inventory sale_items customers].
  assert (∀ i, foldl delete_line stock
                 (new_sale_item (next_id (sales db)) <$> ls) !! i
               = (λ it, if bool_decide (i ∈ lr_inventory_id <$> ls)
                        then set_stock it (quantity it)
                               (if String.eqb (status (after_sale ls i it))
                                     "sold"
                                then "available"
                                else status (after_sale ls i it))
                        else it)
                 <$> inventory db !! i) as Hback.
  { intros i. rewrite delete_lines_returned, Hstock.
    rewrite new_rows_inventory_ids, returned_new_rows.
    destruct (inventory db !! i) as [it|]; [|done]. simpl. f_equal.
    case_bool_decide as Hin; [|by apply after_sale_unreferenced].
    unfold restore_stock. unfold after_sale at 1 2.
    cbn [set_stock quantity item_type source_location purchase_cost
           retail_price selling_price item_discount_percentage].
    f_equal. lia. }
  split_and!.
  - apply delete_insert_id, next_id_fresh.
  - rewrite list.filter_app, other_sales_rows_fresh, other_sales_rows_new by done.
    apply app_nil_r.
  - done.
  - intros i it Hi. rewrite Hback, Hi. eexists. split; [reflexivity|].
    case_bool_decide; [|split; [done|apply same_item_but_stock_refl]].
    cbn [set_stock quantity]. split; [done|]. apply same_item_set_stock.
  - intros Havail. apply map_eq. intros i. rewrite Hback.
    destruct (inventory db !! i) as [it|] eqn:Hi; simpl; [|done].
    f_equal. case_bool_decide as Hin; [|done].
    apply list_elem_of_fmap in Hin as (l & -> & Hl).
    pose proof (Havail l it Hl Hi) as Hst.
    unfold after_sale. cbn [set_stock status]. rewrite Hst.
    case_bool_decide; cbn; rewrite <- Hst; apply set_stock_same.
Qed.

Lemma create_then_delete_restores_witness :
  ∃ db1 db2,
    create_multi_item_sale admin new_year_noon
      (cash_request (Line <$> valid_lines)) (shop "pending")
    = (sale_created "INV20250101-0002", db1)
    ∧ admin_delete_sale admin 2 db1 = (sale_deleted "INV20250101-0002", db2)
    ∧ db2 = shop "pending".
Proof.
  destruct (create_then_delete_restores admin admin new_year_noon
              (cash_request (Line <$> valid_lines))
              (shop "pending") valid_lines (customers (shop "pending")) 1
              "INV20250101-0002" "cash" "Bob")
    as (db1 & db2 & Hrun & Hdel & Hsales & Hrows & Hcs & _ & Hsame).
  - exact cash_request_accepted.
  - reflexivity.
  - discriminate.
  - exact valid_lines_valid.
  - intros si Hsi. by apply elem_of_nil in Hsi.
  - reflexivity.
  - exists db1, db2. split; [exact Hrun|]. split; [exact Hdel|].
    destruct db2 as [i2 c2 s2 r2]. cbn in Hsales, Hrows, Hcs, Hsame.
    unfold shop. f_equal; try done.
    apply Hsame. intros l it Hl Hit. unfold valid_lines in Hl.
    apply elem_of_cons in Hl as [->|Hl];
      [|apply elem_of_cons in Hl as [->|Hl]; [|by apply elem_of_nil in Hl]].
    + vm_compute in Hit. by simplify_eq.
    + vm_compute in Hit. by simplify_eq.
Defined.

Lemma delete_line_same_inventory (m : gmap Z InventoryItem) (si : SaleItem) :
  same_inventory_but_stock m (delete_line m si).
Proof.
  unfold delete_line.
  destruct (m !! si_inventory_id si) as [it|] eqn:Hit;
    [|apply same_inventory_refl].
  unfold restore_stock. by apply same_inventory_insert.
Qed.

Lemma delete_lines_same_inventory (rows : list SaleItem)
    (m : gmap Z InventoryItem) :
  same_inventory_but_stock m (foldl delete_line m rows).
Proof.
  revert m. induction rows as [|si rows IH]; intros m;
    [apply same_inventory_refl|].
  cbn [foldl]. eapply same_inventory_trans; [|apply IH].
  apply delete_line_same_inventory.
Qed.

Lemma sale_items_of_other (j sale_id : Z) (rows : list SaleItem) :
  j ≠ sale_id →
  sale_items_of j (filter (λ si, si_sale_id si ≠ sale_id) rows)
  = sale_items_of j rows.
Proof.
  intros Hj. unfold sale_items_of.
  induction rows as [|si rows IH]; [done|].
  destruct (decide (si_sale_id si = sale_id)) as [Heq|Hne].
  - rewrite (filter_cons_False (λ si, si_sale_id si ≠ sale_id)) by naive_solver.
    rewrite (filter_cons_False (λ si, si_sale_id si = j)) by congruence. done.
  - rewrite (filter_cons_True (λ si, si_sale_id si ≠ sale_id)) by done.
    destruct (decide (si_sale_id si = j)).
    + rewrite !(filter_cons_True (λ si, si_sale_id si = j)) by done.
      by rewrite IH.
    + rewrite !(filter_cons_False (λ si, si_sale_id si = j)) by done. done.
Qed.

(** X25: deleting a sale leaves the customers, the other sales and their lines
    alone and keeps every item: only quantities and statuses may change. *)
Theorem admin_delete_sale_frame (u : User) (sale_id : Z) (db : DB) :
  let db' := (admin_delete_sale u sale_id db).2 in
  customers db' = customers db
  ∧ (∀ j, j ≠ sale_id →
       sales db' !! j = sales db !! j
       ∧ sale_items_of j (sale_items db') = sale_items_of j (sale_items db))
  ∧ same_inventory_but_stock (inventory db) (inventory db').
Proof.
  cbv zeta. unfold admin_delete_sale.
  assert (customers db = customers db
          ∧ (∀ j, j ≠ sale_id →
               sales db !! j = sales db !! j
               ∧ sale_items_of j (sale_items db)
                 = sale_items_of j (sale_items db))
          ∧ same_inventory_but_stock (inventory db) (inventory db)) as Hsame
    by (split_and!; [done|done|apply same_inventory_refl]).
  destruct (negb (String.eqb (role u) "office_admin")); [exact Hsame|].
  destruct (sales db !! sale_id) as [sale|] eqn:Hsale; [|exact Hsame].
  destruct (delete_restores sale (sale_items_of sale_id (sale_items db))
              (inventory db)) as [inv|] eqn:Hinv; [|exact Hsame].
  cbn [snd customers sales sale_items inventory]. split_and!.
  - done.
  - intros j Hj. rewrite lookup_delete_ne by done.
    by rewrite sale_items_of_other.
  - unfold delete_restores in Hinv.
    destruct (legacy_item sale (inventory db)) as [[i it]|] eqn:Hleg.
    + destruct (quantity_sold sale) as [q|]; [|done]. injection Hinv as <-.
      unfold legacy_item in Hleg.
      destruct (inventory_id sale) as [i'|]; [|done].
      destruct (inventory db !! i') as [it'|] eqn:Hit; [|done].
      injection Hleg as -> ->.
      unfold restore_stock. by apply same_inventory_insert.
    + injection Hinv as <-. apply delete_lines_same_inventory.
Qed.

(** ** The single item sale, further *)

Lemma add_sale_inv
    (float_subtotal : Decimal → Z → Decimal)
    (float_final_price : Decimal → Z → option Decimal → Decimal)
    (u : User) (now : datetime) (f : SaleForm) (db : DB) :
  let r := add_sale float_subtotal float_final_price u now f db in
  r.2 = db
  ∨ r.1 = Redirect "sales" [("Sale created successfully", "success")]
    ∧ ∃ i q it sale cs,
        inventory db !! i = Some it
        ∧ status it = "available"
        ∧ 1 ≤ q ≤ quantity it
        ∧ payment_status sale = "pending"
        ∧ inventory_id sale = Some i
        ∧ quantity_sold sale = Some q
        ∧ (invoice_number sale ∉ invoice_numbers db)
        ∧ r.2 = {| inventory := <[i := sell_stock it q]> (inventory db);
                   customers := cs;
                   sales := <[next_id (sales db) := sale]> (sales db);
                   sale_items := sale_items db |}.
Proof.
  cbv zeta. unfold add_sale.
  destruct (has_permission u "create_sales"); [|by left]. cbn [negb].
  destruct (sale_form_validates f db) eqn:Hvalid; [|by left]. cbn [negb].
  destruct (sale_form_validates_item f db Hvalid)
    as (i & q & it & Hi & Hi0 & Hq & Hq1 & Hit & Hst).
  rewrite Hi, Hq, Hit.
  destruct (add_sale_customer f db) as [cs cid| |]; [|by left|];
    (case_bool_decide as Hstock; [by left|]); [|by left].
  destruct (generated_invoice_number now (invoice_numbers db)) as [inv|];
    [|by left].
  case_bool_decide as Hfree; [by left|]. right.
  split; [done|]. exists i, q, it.
  exists (new_single_item_sale float_subtotal float_final_price u now cid i q
            it inv f), cs.
  cbn [snd]. split_and!; try done. lia.
Qed.

(** X26: what [add_sale] does to the database: nothing, or it sells [q] units,
    at least one and no more than are in stock, of one available item,
    and adds one pending sale of that item and no line. *)
Theorem add_sale_all_or_nothing
    (float_subtotal : Decimal → Z → Decimal)
    (float_final_price : Decimal → Z → option Decimal → Decimal)
    (u : User) (now : datetime) (f : SaleForm) (db : DB) :
  let r := add_sale float_subtotal float_final_price u now f db in
  r.2 = db
  ∨ r.1 = Redirect "sales" [("Sale created successfully", "success")]
    ∧ ∃ i q it sale,
        inventory db !! i = Some it
        ∧ status it = "available"
        ∧ 1 ≤ q ≤ quantity it
        ∧ inventory r.2 = <[i := sell_stock it q]> (inventory db)
        ∧ sale_items r.2 = sale_items db
        ∧ sales r.2 = <[next_id (sales db) := sale]> (sales db)
        ∧ payment_status sale = "pending"
        ∧ inventory_id sale = Some i
        ∧ quantity_sold sale = Some q
        ∧ invoice_number sale ∉ invoice_numbers db.
Proof.
  cbv zeta. unfold add_sale.
  destruct (has_permission u "create_sales"); [|by left]. cbn [negb].
  destruct (sale_form_validates f db) eqn:Hvalid; [|by left]. cbn [negb].
  destruct (sale_form_validates_item f db Hvalid)
    as (i & q & it & Hi & Hi0 & Hq & Hq1 & Hit & Hst).
  rewrite Hi, Hq, Hit.
  destruct (add_sale_customer f db) as [cs cid| |]; [|by left|];
    (case_bool_decide as Hstock; [by left|]); [|by left].
  destruct (generated_invoice_number now (invoice_numbers db)) as [inv|];
    [|by left].
  case_bool_decide as Hfree; [by left|]. right.
  split; [done|]. exists i, q, it. eexists.
  cbn [snd inventory sale_items sales]. split_and!; try done. lia.
Qed.

(** X27: [add_sale] never sells below zero: a stock without negative quantities
    has none afterwards. *)
Theorem add_sale_stock_nonneg
    (float_subtotal : Decimal → Z → Decimal)
    (float_final_price : Decimal → Z → option Decimal → Decimal)
    (u : User) (now : datetime) (f : SaleForm) (db : DB) :
  stock_nonneg (inventory db) →
  stock_nonneg
    (inventory (add_sale float_subtotal float_final_price u now f db).2).
Proof.
  intros Hnn.
  destruct (add_sale_inv float_subtotal float_final_price u now f db)
    as [->|(_ & i & q & it & sale & cs & Hit & _ & Hq & _ & _ & _ & _ & ->)];
    [done|].
  intros j itj Hj. cbn [snd inventory] in Hj.
  apply lookup_insert_Some in Hj as [[_ <-]|[_ Hj]].
  - unfold sell_stock. cbn [set_stock quantity]. lia.
  - by apply (Hnn j).
Qed.

Lemma add_sale_stock_nonneg_witness :
  stock_nonneg
    (inventory (add_sale exact_subtotal exact_final_price admin new_year_noon
                  (widget_form 5 (dec 10)) (shop "pending")).2).
Proof. apply add_sale_stock_nonneg. exact shop_stock_nonneg. Defined.

Lemma add_sale_insufficient_stock_witness :
  add_sale exact_subtotal exact_final_price admin new_year_noon
    (widget_form 9 (dec 10)) (shop "pending")
  = (Redirect "sales" [("Only 5 units available", "danger")], shop "pending").
Proof.
  apply (add_sale_insufficient_stock exact_subtotal exact_final_price admin
           new_year_noon (widget_form 9 (dec 10)) (shop "pending")
           (customers (shop "pending")) 1 1 9 (widget 5 "available")).
  - reflexivity.
  - vm_compute. reflexivity.
  - reflexivity.
  - reflexivity.
  - reflexivity.
  - reflexivity.
  - simpl. lia.
Defined.

Lemma add_sale_invalid_discount_witness :
  add_sale exact_subtotal exact_final_price admin new_year_noon
    (widget_form 2 (dec 150)) (shop "pending")
  = (Render "sales.html", shop "pending").
Proof.
  apply (add_sale_invalid_discount exact_subtotal exact_final_price admin
           new_year_noon (widget_form 2 (dec 150)) (shop "pending") (dec 150)).
  - reflexivity.
  - reflexivity.
  - right. by_computation.
Defined.

Lemma add_sale_then_void_restores_witness :
  ∃ inv db2,
    void_sale_txn admin next_day_noon 2 "returned"
      (add_sale exact_subtotal exact_final_price admin new_year_noon
         (widget_form 5 (dec 10)) (shop "pending")).2
    = (sale_voided inv, db2)
    ∧ inventory db2 = inventory (shop "pending").
Proof.
  apply (add_sale_then_void_restores exact_subtotal exact_final_price admin admin
           new_year_noon next_day_noon (widget_form 5 (dec 10))
           (shop "pending")).
  - intros si Hsi. by apply elem_of_nil in Hsi.
  - vm_compute. reflexivity.
  - discriminate.
Defined.

(** ** Confirming a payment, further *)

(** X20: a confirmation touches neither the stock, nor the customers, nor the
    lines, nor any other sale; of the sale itself it leaves the invoice
    number, the customer, the amounts, the payment method, the void record
    and the legacy columns as they are. *)
Theorem confirm_payment_frame (u : User) (now : datetime) (sale_id : Z)
    (req : ConfirmRequest) (db : DB) :
  let db' := (confirm_payment u now sale_id req db).2 in
  inventory db' = inventory db
  ∧ customers db' = customers db
  ∧ sale_items db' = sale_items db
  ∧ (∀ j, j ≠ sale_id → sales db' !! j = sales db !! j)
  ∧ option_Forall2 same_sale_but_confirmed
      (sales db !! sale_id) (sales db' !! sale_id).
Proof.
  assert (∀ s, same_sale_but_confirmed s s) as Hrefl
    by (intros s; unfold same_sale_but_confirmed; by split_and!).
  assert (inventory db = inventory db
          ∧ customers db = customers db
          ∧ sale_items db = sale_items db
          ∧ (∀ j, j ≠ sale_id → sales db !! j = sales db !! j)
          ∧ option_Forall2 same_sale_but_confirmed
              (sales db !! sale_id) (sales db !! sale_id)) as Hsame
    by (split_and!; try done;
        destruct (sales db !! sale_id); constructor; apply Hrefl).
  cbv zeta. unfold confirm_payment.
  destruct (negb (has_permission u "reconcile_payments")); [exact Hsame|].
  destruct (sales db !! sale_id) as [sale|] eqn:Hsale;
    [|cbn [snd]; by rewrite Hsale].
  destruct (cf_validates req); [|cbn [snd]; by rewrite Hsale].
  cbn [snd inventory customers sale_items sales]. split_and!; try done.
  - intros j Hj. by rewrite lookup_insert_ne.
  - rewrite lookup_insert_eq. constructor.
    unfold same_sale_but_confirmed. by split_and!.
Qed.

Lemma append_nil_r (s : string) : s +:+ "" = s.
Proof.
  induction s as [|c s IH]; [done|]. by rewrite append_cons, IH.
Qed.

(** X21: a confirmation never loses the notes of a sale: the notes afterwards
    begin with the notes of before. *)
Theorem confirm_payment_keeps_notes (u : User) (now : datetime) (sale_id : Z)
    (req : ConfirmRequest) (db : DB) (sale : Sale) (old : string) :
  sales db !! sale_id = Some sale →
  notes sale = Some old →
  ∃ sale' added,
    sales (confirm_payment u now sale_id req db).2 !! sale_id = Some sale'
    ∧ notes sale' = Some (old +:+ added).
Proof.
  intros Hsale Hnotes. unfold confirm_payment.
  destruct (negb (has_permission u "reconcile_payments"));
    [exists sale, ""; by rewrite append_nil_r|].
  rewrite Hsale.
  destruct (cf_validates req); [|exists sale, ""; by rewrite append_nil_r].
  cbn [snd sales]. rewrite lookup_insert_eq.
  exists (set_confirmed sale u now req).
  cbn [set_confirmed notes]. unfold confirmation_notes. rewrite Hnotes.
  destruct (cf_confirmation_notes req) as [[|c n]|].
  - exists "". by rewrite append_nil_r.
  - destruct old as [|o old'].
    + eexists. split; [done|]. by rewrite append_nil_l.
    + eexists. split; done.
  - exists "". by rewrite append_nil_r.
Qed.

Lemma confirm_payment_keeps_notes_witness :
  ∃ sale' added,
    sales (confirm_payment admin new_year_noon 1 noted_confirmation
             noted_shop).2 !! 1 = Some sale'
    ∧ notes sale' = Some ("call before delivery" +:+ added).
Proof.
  apply (confirm_payment_keeps_notes admin new_year_noon 1 noted_confirmation
           noted_shop noted_sale "call before delivery"); reflexivity.
Defined.

(** ** Lines and their sales *)

Lemma sale_items_integrity_mono (db db' : DB) :
  (∀ j, is_Some (sales db !! j) → is_Some (sales db' !! j)) →
  sale_items db' = sale_items db →
  sale_items_integrity db → sale_items_integrity db'.
Proof.
  intros Hsales Hrows Hint si Hsi. rewrite Hrows in Hsi. by apply Hsales, Hint.
Qed.

Lemma sale_items_integrity_insert (db : DB) (inv : gmap Z InventoryItem)
    (cs : gmap Z Customer) (j : Z) (s : Sale) :
  sale_items_integrity db →
  sale_items_integrity
    {| inventory := inv; customers := cs;
       sales := <[j := s]> (sales db); sale_items := sale_items db |}.
Proof.
  apply sale_items_integrity_mono; [|done]. intros k Hk. cbn [sales].
  destruct (decide (j = k)) as [->|Hne].
  - rewrite lookup_insert_eq. by eexists.
  - by rewrite lookup_insert_ne.
Qed.

(** X30: every line belongs to a sale, and no route breaks this: creating a sale,
    voiding, confirming, editing and deleting one keep it. *)
Theorem sale_items_integrity_preserved
    (float_subtotal : Decimal → Z → Decimal)
    (float_final_price : Decimal → Z → option Decimal → Decimal)
    (fk : bool) (u : User) (now : datetime) (sale_id : Z) (reason : string)
    (multi : MultiItemRequest) (f : SaleForm) (confirm : ConfirmRequest)
    (edit : EditSaleRequest) (db : DB) :
  sale_items_integrity db →
  sale_items_integrity (create_multi_item_sale u now multi db).2
  ∧ sale_items_integrity
      (add_sale float_subtotal float_final_price u now f db).2
  ∧ sale_items_integrity (void_sale_txn u now sale_id reason db).2
  ∧ sale_items_integrity (confirm_payment u now sale_id confirm db).2
  ∧ sale_items_integrity (edit_sale fk u sale_id edit db).2
  ∧ sale_items_integrity (admin_delete_sale u sale_id db).2.
Proof.
  intros Hint. split_and!.
  - destruct (create_multi_item_sale_inv u now multi db)
      as [->|(cs & cid & inv & method & receiver & c & _ & Hrun & _ & ->)];
      [done|].
    cbn [snd]. intros si Hsi. cbn [sale_items sales] in *.
    apply elem_of_app in Hsi as [Hsi|Hsi].
    + destruct (decide (next_id (sales db) = si_sale_id si)) as [<-|Hne].
      * rewrite lookup_insert_eq. by eexists.
      * rewrite lookup_insert_ne by done. by apply Hint.
    + destruct (decide (LineUnparsable ∈ mi_lines multi)) as [Hin|Hni].
      { destruct (process_lines_unparsable (next_id (sales db))
                    (mi_lines multi) (mk_Cart (inventory db) [] 0 []) Hin)
          as [fl Hfl].
        rewrite Hfl in Hrun. done. }
      destruct (process_lines_done (next_id (sales db)) (mi_lines multi)
                  (mk_Cart (inventory db) [] 0 []) Hni)
        as (c' & Hrun' & Hrows & _).
      rewrite Hrun in Hrun'. injection Hrun' as <-.
      rewrite Hrows in Hsi. cbn [cart_rows app] in Hsi.
      apply list_elem_of_fmap in Hsi as (l & -> & _).
      cbn [new_sale_item calculate_line_totals si_sale_id].
      rewrite lookup_insert_eq. by eexists.
  - destruct (add_sale_inv float_subtotal float_final_price u now f db)
      as [->|(_ & i & q & it & sale & cs & _ & _ & _ & _ & _ & _ & _ & ->)];
      [done|].
    by apply sale_items_integrity_insert.
  - unfold void_sale_txn.
    destruct (sales db !! sale_id) as [sale|]; [|done].
    case_bool_decide; [done|]. case_bool_decide; [done|].
    destruct (void_legacy_item sale (inventory db)); [|done].
    by apply sale_items_integrity_insert.
  - unfold confirm_payment.
    destruct (negb (has_permission u "reconcile_payments")); [done|].
    destruct (sales db !! sale_id) as [sale|]; [|done].
    destruct (cf_validates confirm); [|done].
    by apply sale_items_integrity_insert.
  - unfold edit_sale.
    destruct (negb (has_permission u "edit_sales")); [done|].
    destruct (sales db !! sale_id) as [sale|]; [|done].
    case_bool_decide; [done|].
    destruct (es_customer_id edit) as [cid|]; [|done].
    destruct (es_payment_method edit); [|done].
    destruct (es_payment_receiver edit); [|done].
    destruct (fk && bool_decide (customers db !! cid = None)); [done|].
    by apply sale_items_integrity_insert.
  - unfold admin_delete_sale.
    destruct (negb (String.eqb (role u) "office_admin")); [done|].
    destruct (sales db !! sale_id) as [sale|]; [|done].
    destruct (delete_restores sale (sale_items_of sale_id (sale_items db))
                (inventory db)); [|done].
    cbn [snd]. intros si Hsi. cbn [sale_items sales] in *.
    apply list_elem_of_filter in Hsi as [Hne Hsi].
    rewrite lookup_delete_ne by done. by apply Hint.
Qed.

Lemma sale_items_integrity_preserved_witness :
  sale_items_integrity
    (create_multi_item_sale admin new_year_noon
       (cash_request (Line <$> valid_lines)) (shop "pending")).2
  ∧ sale_items_integrity (admin_delete_sale admin 1 (shop "pending")).2.
Proof.
  destruct (sale_items_integrity_preserved exact_subtotal exact_final_price
              true admin new_year_noon 1 "returned"
              (cash_request (Line <$> valid_lines)) (widget_form 5 (dec 10))
              confirmation
              (mk_EditSaleRequest (Some 1) (Some "card") (Some "Bob") "" false)
              (shop "pending"))
    as (Hcreate & _ & _ & _ & _ & Hdelete).
  - intros si Hsi. by apply elem_of_nil in Hsi.
  - split; [exact Hcreate|exact Hdelete].
Defined.
